(** * InsightBot: the query selector, the result analyzer and the chart renderer

    A shallow embedding of [src/app.py]: [generate_sql_query] (keyword
    matching of a question onto fixed SQL texts), [analyze_data] (summary
    lines, insights and chart suggestions for a result table) and
    [create_visualization] (dispatch on the chart type).

    Python values are embedded as follows.
    - A [str] is the list of its Unicode code points ([pystr]).
    - [None] against a value is [option]; an exception caught by the
      function's own [except Exception] clause is a call of [st.error] and
      a [None] result.
    - pandas and plotly are libraries outside the repository: the float
      arithmetic of pandas and the chart constructors of plotly are
      interfaces ([Float64], [Plotly]) with one executable instance each. *)

From Stdlib Require Import List String Ascii ZArith NArith QArith Qabs Bool Lia.
Import ListNotations.

Open Scope string_scope.
Open Scope list_scope.
Open Scope N_scope.

(** ** Python strings *)

Module PyStr.

(** A Python [str]: a sequence of code points. *)
Definition pystr : Type := list N.

(** The code points of a literal of the source (all of them ASCII). *)
Definition of_string (s : string) : pystr :=
  map N_of_ascii (list_ascii_of_string s).

Coercion of_string : string >-> pystr.

(** [a +++ b]: concatenation, as an f-string or [+] builds it. *)
Definition cat (a b : pystr) : pystr := a ++ b.

Infix "+++" := cat (right associativity, at level 60).

(** [str.lower] on one code point. The Latin capitals go to their small
    letters. Two code points beyond ASCII lower to ASCII letters: U+0130
    (capital I with dot above) to [i] followed by U+0307, and U+212A (the
    Kelvin sign) to [k]. Every other code point beyond ASCII lowers to code
    points beyond ASCII, which no keyword of the program contains; the
    model leaves those as they are. *)
Definition lower_cp (c : N) : pystr :=
  if (65 <=? c) && (c <=? 90) then [c + 32]
  else if c =? 304 then [105; 775]
  else if c =? 8490 then [107]
  else [c].

(** [s.lower()] *)
Definition lower (s : pystr) : pystr := flat_map lower_cp s.

(** [hay.startswith(needle)] *)
Fixpoint starts_with (needle hay : pystr) : bool :=
  match needle, hay with
  | [], _ => true
  | _ :: _, [] => false
  | n :: ns, h :: hs => (n =? h) && starts_with ns hs
  end.

(** [needle in hay]: [needle] occurs in [hay] as a contiguous run. *)
Fixpoint contains (needle hay : pystr) : bool :=
  starts_with needle hay ||
  match hay with
  | [] => false
  | _ :: rest => contains needle rest
  end.

(** [sep.join(parts)] *)
Fixpoint join (sep : pystr) (parts : list pystr) : pystr :=
  match parts with
  | [] => []
  | [p] => p
  | p :: ps => p +++ sep +++ join sep ps
  end.

(** Equality of two strings, [a == b]. *)
Fixpoint eqb (a b : pystr) : bool :=
  match a, b with
  | [], [] => true
  | x :: a', y :: b' => (x =? y) && eqb a' b'
  | _, _ => false
  end.

(** A keyword letter [k] matched by [c] in either letter case: [c] is [k],
    or [k] is a small Latin letter and [c] its capital. *)
Definition same_letter (c k : N) : Prop :=
  c = k \/ (97 <= k <= 122 /\ c + 32 = k).

(** [q] contains the keyword [kw] in any letter case: some run of [q]
    matches [kw] letter by letter. *)
Definition contains_ci (kw q : pystr) : Prop :=
  exists pre run post,
    q = pre ++ run ++ post /\ Forall2 same_letter run kw.

(** A keyword as the source writes them: no capital letter, and none of the
    code points that [lower_cp] rewrites. *)
Definition plain (kw : pystr) : Prop :=
  Forall (fun k => lower_cp k = [k]) kw.

End PyStr.
Import PyStr.

(** ** The query selector: [generate_sql_query], app.py:32-103 *)

(** app.py:48-57, the text returned for the best-selling products. *)
Definition top_products_sql : pystr :=
  "
                SELECT p.name as product_name, 
                       SUM(s.quantity) as total_quantity,
                       SUM(s.total_amount) as total_sales
                FROM sales s
                JOIN products p ON s.product_id = p.product_id
                GROUP BY p.product_id, p.name
                ORDER BY total_sales DESC
                LIMIT 5
                ".

(** app.py:59-67, sales and customer counts per region. *)
Definition sales_by_region_sql : pystr :=
  "
            SELECT c.region, 
                   SUM(s.total_amount) as total_sales,
                   COUNT(DISTINCT s.customer_id) as customer_count
            FROM sales s
            JOIN customers c ON s.customer_id = c.customer_id
            GROUP BY c.region
            ORDER BY total_sales DESC
            ".

(** app.py:69-76, the product listing. *)
Definition all_products_sql : pystr :=
  "
            SELECT p.name, 
                   p.category,
                   p.price,
                   p.stock
            FROM products p
            ORDER BY p.category, p.name
            ".

(** app.py:78-87, the ten customers who spent most. *)
Definition customer_spending_sql : pystr :=
  "
            SELECT c.name as customer_name,
                   c.region,
                   SUM(s.total_amount) as total_spent
            FROM sales s
            JOIN customers c ON s.customer_id = c.customer_id
            GROUP BY c.customer_id, c.name, c.region
            ORDER BY total_spent DESC
            LIMIT 10
            ".

(** app.py:90-100, the default: sales per product. *)
Definition default_sql : pystr :=
  "
            SELECT p.name as product_name,
                   p.category,
                   COUNT(*) as number_of_sales,
                   SUM(s.quantity) as total_quantity,
                   SUM(s.total_amount) as total_revenue
            FROM sales s
            JOIN products p ON s.product_id = p.product_id
            GROUP BY p.product_id, p.name, p.category
            ORDER BY total_revenue DESC
            ".

(** The question is lowered once and tested for keywords, first match first.
    The first branch holds a nested [if] with no [else]: a question with
    [top] or [best] and no [product] enters the branch, skips every [elif],
    and leaves the function with no [return] statement, which in Python
    returns [None].

    The [templates] dictionary of app.py:35-40 is never read. The [try]
    wraps tests and literals that cannot raise, so its [except] clause is
    never taken. *)
Definition generate_sql_query (question : pystr) : option pystr :=
  let question_lower := lower question in
  if contains "top" question_lower || contains "best" question_lower then
    if contains "products" question_lower || contains "product" question_lower
    then Some top_products_sql
    else None
  else if contains "sales by region" question_lower then
    Some sales_by_region_sql
  else if contains "all products" question_lower then
    Some all_products_sql
  else if contains "customer" question_lower && contains "spending" question_lower then
    Some customer_spending_sql
  else
    Some default_sql.

(** The SQL texts the function has a [return] for. *)
Definition sql_templates : list pystr :=
  [top_products_sql; sales_by_region_sql; all_products_sql;
   customer_spending_sql; default_sql].

(** ** Numbers of pandas and their formatting *)

(** [str(n)] of a natural number: its decimal digits. *)
Fixpoint digits (fuel : nat) (n : N) (acc : pystr) : pystr :=
  match fuel with
  | O => acc
  | S fuel' =>
      let acc' := (48 + n mod 10) :: acc in
      if n / 10 =? 0 then acc' else digits fuel' (n / 10) acc'
  end.

Definition str_of_N (n : N) : pystr := digits (S (N.to_nat (N.log2 n))) n [].

(** The number a string of decimal digits writes, [int(s)]. *)
Definition int_of (s : pystr) : N :=
  fold_left (fun acc d => 10 * acc + (d - 48)) s 0.

(** The comma of the [,] format option, every three digits from the right;
    [rds] holds the digits of the integer part, last digit first. *)
Fixpoint commas (rds : pystr) : pystr :=
  match rds with
  | a :: b :: c :: (_ :: _) as rest => a :: b :: c :: 44 :: commas rest
  | _ => rds
  end.

Definition grouped (n : N) : pystr := rev (commas (rev (str_of_N n))).

(** The float64 arithmetic pandas and numpy run on a column, and Python's
    [format(v, ',.2f')]. Rounding, and the order in which numpy adds the
    elements of an array, belong to those libraries; they are an interface
    here, with the facts the program's results rest on when a column is
    empty: the sum of no elements is [0.0], and [0.0] and [nan] print as
    [0.00] and [nan]. *)
Class Float64 : Type := {
  float : Type;
  fzero : float;
  fnan : float;
  isnan : float -> bool;
  of_int : Z -> float;
  fsum : list float -> float;
  fdiv : float -> float -> float;
  format_2f : float -> pystr;
  fsum_nil : fsum [] = fzero;
  of_int_0 : of_int 0 = fzero;
  format_2f_zero : format_2f fzero = "0.00";
  format_2f_nan : format_2f fnan = "nan"
}.

(** An instance that computes: exact rational arithmetic, with [nan]. It
    agrees with float64 wherever float64 is exact. *)
Module Exact.

Inductive xfloat : Type :=
| XNaN
| XNum (q : Q).

Definition xisnan (v : xfloat) : bool :=
  match v with XNaN => true | XNum _ => false end.

Definition xadd (a b : xfloat) : xfloat :=
  match a, b with
  | XNum p, XNum q => XNum (Qred (p + q))
  | _, _ => XNaN
  end.

Definition xsum (vs : list xfloat) : xfloat := fold_left xadd vs (XNum 0).

Definition xdiv (a b : xfloat) : xfloat :=
  match a, b with
  | XNum p, XNum q => if Qeq_bool q 0 then XNaN else XNum (Qred (p / q))
  | _, _ => XNaN
  end.

(** The hundredths nearest to [|q|], ties to the even one. *)
Definition hundredths (q : Q) : N :=
  let a := (Z.abs (Qnum q) * 100)%Z in
  let d := Zpos (Qden q) in
  let quo := (a / d)%Z in
  let rem := (a mod d)%Z in
  let up := ((2 * rem >? d) || ((2 * rem =? d) && Z.odd quo))%Z in
  Z.to_N (if up then quo + 1 else quo).

Definition two_digits (n : N) : pystr := [48 + n / 10; 48 + n mod 10].

(** [format(v, ',.2f')]: sign, integer part in groups of three, a point and
    two decimals. A negative value keeps its sign when it rounds to zero. *)
Definition xformat (v : xfloat) : pystr :=
  match v with
  | XNaN => "nan"
  | XNum q =>
      let h := hundredths q in
      (if (Qnum q <? 0)%Z then "-" else "") +++
      grouped (h / 100) +++ "." +++ two_digits (h mod 100)
  end.

#[export] Instance exact : Float64 := {|
  float := xfloat;
  fzero := XNum 0;
  fnan := XNaN;
  isnan := xisnan;
  of_int := fun z => XNum (inject_Z z);
  fsum := xsum;
  fdiv := xdiv;
  format_2f := xformat;
  fsum_nil := eq_refl;
  of_int_0 := eq_refl;
  format_2f_zero := eq_refl;
  format_2f_nan := eq_refl
|}.

End Exact.

(** What a float is, for printing: not a number, an infinity, or a sign
    and a magnitude (every finite float is a rational number; zero has a
    sign). *)
Inductive fvalue : Type :=
| NotANumber
| Infinite (negative : bool)
| Finite (negative : bool) (magnitude : Q).

Definition sign_text (negative : bool) : pystr :=
  if negative then "-" else "".

(** [format(v, ',.2f')] by the value of [v]: Python prints the hundredths
    nearest to the exact value (ties to the even one), the integer part in
    groups of three, and [nan] and [inf] as words. *)
Definition two_decimals (v : fvalue) : pystr :=
  match v with
  | NotANumber => "nan"
  | Infinite negative => sign_text negative +++ "inf"
  | Finite negative magnitude =>
      let h := Exact.hundredths magnitude in
      sign_text negative +++ grouped (h / 100) +++ "." +++
      Exact.two_digits (h mod 100)
  end.

(** The formatting of [Float64], by value. *)
Class FloatText {F : Float64} : Type := {
  classify : float -> fvalue;
  format_2f_classify : forall v, format_2f v = two_decimals (classify v)
}.

Module ExactText.

Definition xclassify (v : Exact.xfloat) : fvalue :=
  match v with
  | Exact.XNaN => NotANumber
  | Exact.XNum q => Finite (Qnum q <? 0)%Z (Qabs q)
  end.

Lemma xformat_classify (v : Exact.xfloat) :
  Exact.xformat v = two_decimals (xclassify v).
Proof.
  destruct v as [|[n d]]; [reflexivity|].
  unfold Exact.xformat, xclassify, two_decimals, Exact.hundredths. simpl.
  now rewrite Z.abs_idemp.
Qed.

#[export] Instance exact_text : FloatText (F := Exact.exact) :=
  @Build_FloatText Exact.exact xclassify xformat_classify.

End ExactText.

(** ** Calls that may raise *)

(** A call into a library: its value, or the exception it raised, by its
    message [str(e)]. *)
Inductive raising (A : Type) : Type :=
| Ok (a : A)
| Raised (e : pystr).

Arguments Ok {A} a.
Arguments Raised {A} e.

(** How a function of the program that guards its body with
    [try ... except Exception as e: st.error(...); return None] ends. *)
Inductive outcome (A : Type) : Type :=
| Returns (a : A)
| ReturnsNone
| Reports (message : pystr).

Arguments Returns {A} a.
Arguments ReturnsNone {A}.
Arguments Reports {A} message.

(** What the caller receives: a value or [None]. *)
Definition returned {A : Type} (o : outcome A) : option A :=
  match o with
  | Returns a => Some a
  | ReturnsNone | Reports _ => None
  end.

(** ** Result tables *)

Section Tables.

Context {F : Float64}.

(** The values of a column pandas can aggregate: dtype [int64] or
    [float64] (a missing value of a float column is [nan]). *)
Inductive numeric : Type :=
| Int64Values (vs : list Z)
| Float64Values (vs : list float).

(** The values of a column, by dtype. [ObjectValues] is dtype [object]
    (text, with [None] for a missing value). [OtherValues] is any other
    dtype, named as pandas prints it ([bool], [datetime64[ns]], [int32],
    ...), with the values as numpy stores them. *)
Inductive values : Type :=
| NumericValues (d : numeric)
| ObjectValues (vs : list (option pystr))
| OtherValues (dtype : string) (vs : list Z).

(** A named column. *)
Record column : Type := {
  label : pystr;
  data : values
}.

(** A [pandas.DataFrame] read from a SQL result: its number of rows and its
    columns in order. pandas lets two columns carry the same label. *)
Record DataFrame : Type := {
  nrows : nat;
  columns : list column
}.

(** [df.select_dtypes(include=['int64', 'float64']).columns], app.py:109,
    each label with the values [df[col]] gives for it. *)
Definition numeric_cols (df : DataFrame) : list (pystr * numeric) :=
  flat_map (fun c => match data c with
                     | NumericValues d => [(label c, d)]
                     | _ => []
                     end) (columns df).

(** [df.select_dtypes(include=['object']).columns], app.py:110 *)
Definition categorical_cols (df : DataFrame) : list pystr :=
  flat_map (fun c => match data c with
                     | ObjectValues _ => [label c]
                     | _ => []
                     end) (columns df).

(** A number as [sum] and [mean] return it: [numpy.int64] or a float. *)
Inductive scalar : Type :=
| IntScalar (z : Z)
| FloatScalar (v : float).

(** 64-bit two's complement wrap-around, as numpy adds [int64]. *)
Definition wrap64 (z : Z) : Z :=
  ((z + 2 ^ 63) mod 2 ^ 64 - 2 ^ 63)%Z.

(** [nan] replaced by [0.0], as pandas does before it adds ([skipna]). *)
Definition fill_nan (vs : list float) : list float :=
  map (fun v => if isnan v then fzero else v) vs.

(** [df[col].sum()] *)
Definition series_sum (d : numeric) : scalar :=
  match d with
  | Int64Values vs => IntScalar (wrap64 (fold_right Z.add 0%Z vs))
  | Float64Values vs => FloatScalar (fsum (fill_nan vs))
  end.

(** [df[col].mean()]: the float sum over the count of the values that are
    not missing, and [nan] when there is none. *)
Definition series_mean (d : numeric) : scalar :=
  let '(the_sum, count) :=
    match d with
    | Int64Values vs => (fsum (map of_int vs), List.length vs)
    | Float64Values vs =>
        (fsum (fill_nan vs),
         List.length (filter (fun v => negb (isnan v)) vs))
    end in
  FloatScalar (if (0 <? count)%nat then fdiv the_sum (of_int (Z.of_nat count))
               else fnan).

(** The replacement field [{v:,.2f}] of an f-string: an integer is turned
    into a float for the [f] presentation. *)
Definition format_scalar (v : scalar) : pystr :=
  match v with
  | IntScalar z => format_2f (of_int z)
  | FloatScalar x => format_2f x
  end.

(** ** The analyzer: [analyze_data], app.py:105-157 *)

(** A chart suggestion, the dictionary of app.py:135-148 with its four
    keys. *)
Record viz_config : Type := {
  viz_type : pystr;
  viz_x : pystr;
  viz_y : pystr;
  viz_title : pystr
}.

(** The dictionary [analyze_data] returns. *)
Record report : Type := {
  analysis : pystr;
  insights : list pystr;
  visualizations : list viz_config
}.

(** One turn of the loop of app.py:121-130 over the lists [analysis] and
    [insights]; [append] adds at the end. *)
Definition analyze_column (acc : list pystr * list pystr)
    (col : pystr * numeric) : list pystr * list pystr :=
  let '(analysis, insights) := acc in
  let '(col, series) := col in
  let total := series_sum series in
  let avg := series_mean series in
  let analysis := analysis ++ ["- Total " +++ col +++ ": " +++ format_scalar total] in
  let analysis := analysis ++ ["- Average " +++ col +++ ": " +++ format_scalar avg] in
  if contains "amount" (lower col) || contains "sales" (lower col) then
    let insights := insights ++ ["Total " +++ col +++ " is " +++ format_scalar total] in
    let insights := insights ++ ["Average " +++ col +++ " per record is " +++ format_scalar avg] in
    (analysis, insights)
  else (analysis, insights).

(** The chart suggestions of app.py:133-148. *)
Definition suggest (categorical_cols : list pystr)
    (numeric_cols : list (pystr * numeric)) : list viz_config :=
  match categorical_cols, numeric_cols with
  | cat0 :: _, (num0, _) :: _ =>
      [ {| viz_type := "bar"; viz_x := cat0; viz_y := num0;
           viz_title := num0 +++ " by " +++ cat0 |};
        {| viz_type := "pie"; viz_x := cat0; viz_y := num0;
           viz_title := "Distribution of " +++ num0 +++ " by " +++ cat0 |} ]
  | _, _ => []
  end.

(** [df[col]]: the columns labelled [col]. One column is a Series; several
    are a frame. *)
Definition getitem (df : DataFrame) (col : pystr) : list column :=
  filter (fun c => eqb (label c) col) (columns df).

(** On a frame, [sum] and [mean] give a Series (or raise), and a Series
    under the format [,.2f] raises [TypeError]: one way or the other the
    turn of the loop raises. The text of the exception is pandas' own. *)
Class Pandas : Type := {
  frame_error : list column -> pystr
}.

Context {Pd : Pandas}.

(** The loop of app.py:121-130. [col] is a label of [numeric_cols]; where
    it labels one column, [df[col]] is that column and [series] its values;
    where it labels several, the turn raises. *)
Fixpoint analyze_columns (df : DataFrame) (numeric_cols : list (pystr * numeric))
    (acc : list pystr * list pystr) : raising (list pystr * list pystr) :=
  match numeric_cols with
  | [] => Ok acc
  | (col, series) :: rest =>
      match getitem df col with
      | [_] => analyze_columns df rest (analyze_column acc (col, series))
      | frame => Raised (frame_error frame)
      end
  end.

(** [analyze_data(df, question)]; the question is not read. An exception of
    the loop is caught at app.py:155-157: the error is reported and [None]
    returned. *)
Definition analyze_data (df : DataFrame) (question : pystr) : outcome report :=
  let numeric_cols := numeric_cols df in
  let categorical_cols := categorical_cols df in
  let total_rows := nrows df in
  let analysis := ["Analysis of " +++ str_of_N (N.of_nat total_rows) +++ " records:"] in
  match analyze_columns df numeric_cols (analysis, []) with
  | Raised e => Reports ("Error analyzing data: " +++ e)
  | Ok (analysis, insights) =>
      Returns {| analysis := join [10] analysis;
                 insights := insights;
                 visualizations := suggest categorical_cols numeric_cols |}
  end.

End Tables.

(** An instance that computes: the message of the [TypeError] a Series
    raises under a format. *)
Module Frames.

#[export] Instance series_format {F : Float64} : Pandas := {|
  frame_error := fun _ => "unsupported format string passed to Series.__format__"
|}.

End Frames.

(** ** The chart renderer: [create_visualization], app.py:159-176 *)

(** The four constructors of [plotly.express] the program calls, with their
    keyword arguments: [x], [y] and [title] for [bar], [line] and [scatter];
    [names], [values] and [title] for [pie]. *)
Class Plotly {F : Float64} : Type := {
  figure : Type;
  px_bar : forall (data_frame : DataFrame) (x y title : pystr), raising figure;
  px_line : forall (data_frame : DataFrame) (x y title : pystr), raising figure;
  px_scatter : forall (data_frame : DataFrame) (x y title : pystr), raising figure;
  px_pie : forall (data_frame : DataFrame) (names values title : pystr), raising figure
}.

(** The end of [create_visualization] once a constructor was called:
    [return fig], or the [except] clause of app.py:174-176. *)
Definition drawn {A : Type} (r : raising A) : outcome A :=
  match r with
  | Ok fig => Returns fig
  | Raised e => Reports ("Error creating visualization: " +++ e)
  end.

Section Renderer.

Context {F : Float64} {P : Plotly}.

(** The chart type is lowered before it is compared. *)
Definition create_visualization (df : DataFrame) (viz_config : viz_config)
    : outcome figure :=
  let chart_type := lower (viz_type viz_config) in
  if eqb chart_type "bar" then
    drawn (px_bar df (viz_x viz_config) (viz_y viz_config) (viz_title viz_config))
  else if eqb chart_type "line" then
    drawn (px_line df (viz_x viz_config) (viz_y viz_config) (viz_title viz_config))
  else if eqb chart_type "scatter" then
    drawn (px_scatter df (viz_x viz_config) (viz_y viz_config) (viz_title viz_config))
  else if eqb chart_type "pie" then
    drawn (px_pie df (viz_x viz_config) (viz_y viz_config) (viz_title viz_config))
  else
    ReturnsNone.

End Renderer.

(** An instance that computes: the figure is the record of the call that
    made it, and no constructor raises. *)
Module Recorded.

Inductive call : Type :=
| Bar (x y title : pystr)
| Line (x y title : pystr)
| Scatter (x y title : pystr)
| Pie (names values title : pystr).

#[export] Instance recorded {F : Float64} : Plotly := {|
  figure := call;
  px_bar := fun _ x y title => Ok (Bar x y title);
  px_line := fun _ x y title => Ok (Line x y title);
  px_scatter := fun _ x y title => Ok (Scatter x y title);
  px_pie := fun _ names values title => Ok (Pie names values title)
|}.

End Recorded.

(** ** The selector by rule *)

(** The five [return] statements of [generate_sql_query], named as the
    specification names the query shapes. *)
Inductive template : Type :=
| TopProducts
| SalesByRegion
| AllProducts
| CustomerSpending
| Default.

Definition sql_of (t : template) : pystr :=
  match t with
  | TopProducts => top_products_sql
  | SalesByRegion => sales_by_region_sql
  | AllProducts => all_products_sql
  | CustomerSpending => customer_spending_sql
  | Default => default_sql
  end.

(** The [return] statement a question reaches, if it reaches one. *)
Definition selected (question : pystr) : option template :=
  let q := lower question in
  if contains "top" q || contains "best" q then
    if contains "products" q || contains "product" q then Some TopProducts
    else None
  else if contains "sales by region" q then Some SalesByRegion
  else if contains "all products" q then Some AllProducts
  else if contains "customer" q && contains "spending" q then Some CustomerSpending
  else Some Default.

(** ** The report, as the specification words it *)

Section Described.

Context {F : Float64}.

(** The header line: the record count. *)
Definition header_line (df : DataFrame) : pystr :=
  "Analysis of " +++ str_of_N (N.of_nat (nrows df)) +++ " records:".

(** The total line and the average line of a numeric column. *)
Definition total_line (col : pystr * numeric) : pystr :=
  "- Total " +++ fst col +++ ": " +++ format_scalar (series_sum (snd col)).

Definition average_line (col : pystr * numeric) : pystr :=
  "- Average " +++ fst col +++ ": " +++ format_scalar (series_mean (snd col)).

(** The two insight strings of a numeric column. *)
Definition total_insight (col : pystr * numeric) : pystr :=
  "Total " +++ fst col +++ " is " +++ format_scalar (series_sum (snd col)).

Definition average_insight (col : pystr * numeric) : pystr :=
  "Average " +++ fst col +++ " per record is " +++ format_scalar (series_mean (snd col)).

(** The name contains [amount] or [sales], whatever the letter case. *)
Definition names_money (col : pystr * numeric) : bool :=
  contains "amount" (lower (fst col)) || contains "sales" (lower (fst col)).

(** Header, then a total and an average line per numeric column. *)
Definition summary_lines (df : DataFrame) : list pystr :=
  header_line df ::
  flat_map (fun col => [total_line col; average_line col]) (numeric_cols df).

(** Two insights per numeric column whose name mentions money. *)
Definition money_insights (df : DataFrame) : list pystr :=
  flat_map (fun col => if names_money col
                       then [total_insight col; average_insight col]
                       else []) (numeric_cols df).

(** The kind of a column: numeric, categorical, or neither. *)
Definition is_numeric (c : column) : bool :=
  match data c with NumericValues _ => true | _ => false end.

Definition is_categorical (c : column) : bool :=
  match data c with ObjectValues _ => true | _ => false end.

(** The numeric columns, in column order. *)
Definition numeric_columns (df : DataFrame) : list column :=
  filter is_numeric (columns df).

(** How often a label occurs among labels. *)
Fixpoint count_label (l : pystr) (labels : list pystr) : nat :=
  match labels with
  | [] => 0
  | x :: rest => (if eqb x l then 1 else 0) + count_label l rest
  end.

(** No numeric column carries a label that another column carries too. *)
Definition numeric_labels_single (df : DataFrame) : bool :=
  forallb (fun c => (count_label (label c) (map label (columns df)) =? 1)%nat)
          (numeric_columns df).

(** The integer of 64 bits that [z] is modulo 2^64. *)
Definition int64_of (z : Z) : Z :=
  let r := (z mod 2 ^ 64)%Z in
  if (r <? 2 ^ 63)%Z then r else (r - 2 ^ 64)%Z.

(** The sum of a numeric column: the sum of its integers as an integer of
    64 bits, or the float sum of its values with nothing added for a
    missing one. *)
Definition column_sum (c : column) : float :=
  match data c with
  | NumericValues (Int64Values vs) => of_int (int64_of (fold_left Z.add vs 0%Z))
  | NumericValues (Float64Values vs) =>
      fsum (map (fun v => if isnan v then fzero else v) vs)
  | _ => fnan
  end.

(** The mean of a numeric column: the float sum over the number of values
    that are not missing; [nan] when there is none. *)
Definition column_mean (c : column) : float :=
  match data c with
  | NumericValues (Int64Values vs) =>
      match vs with
      | [] => fnan
      | _ :: _ => fdiv (fsum (map of_int vs)) (of_int (Z.of_nat (List.length vs)))
      end
  | NumericValues (Float64Values vs) =>
      let missing := List.length (filter isnan vs) in
      if (missing <? List.length vs)%nat
      then fdiv (fsum (map (fun v => if isnan v then fzero else v) vs))
                (of_int (Z.of_nat (List.length vs - missing)))
      else fnan
  | _ => fnan
  end.

(** The lines and the insights of a numeric column. *)
Definition total_line_of (c : column) : pystr :=
  "- Total " +++ label c +++ ": " +++ format_2f (column_sum c).

Definition average_line_of (c : column) : pystr :=
  "- Average " +++ label c +++ ": " +++ format_2f (column_mean c).

Definition total_insight_of (c : column) : pystr :=
  "Total " +++ label c +++ " is " +++ format_2f (column_sum c).

Definition average_insight_of (c : column) : pystr :=
  "Average " +++ label c +++ " per record is " +++ format_2f (column_mean c).

(** A code point that nothing but its own letter, small or capital, lowers
    to: not [i], not the dot above, not [k]. *)
Definition own_letter (k : N) : Prop := k <> 105 /\ k <> 775 /\ k <> 107.

(** [df[col]] is a Series: one column is labelled [col]. *)
Definition is_series (df : DataFrame) (col : pystr) : bool :=
  match getitem df col with
  | [_] => true
  | _ => false
  end.

(** The label shows [amount] or [sales]. *)
Definition money_label (c : column) : bool :=
  contains "amount" (lower (label c)) || contains "sales" (lower (label c)).

(** Groups of digits as the thousands separator leaves them: one to three
    digits, then groups of three. *)
Definition groups_of_three (groups : list pystr) : Prop :=
  match groups with
  | [] => False
  | g :: rest =>
      (1 <= List.length g <= 3)%nat /\
      Forall (fun g' => List.length g' = 3%nat) rest
  end.

(** [h] hundredths are as near to the magnitude [m] as hundredths get. *)
Definition nearest_hundredths (m : Q) (h : N) : Prop :=
  (2 * Z.abs (Z.abs (Qnum m) * 100 - Z.of_N h * Zpos (Qden m)) <= Zpos (Qden m))%Z.

(** A number printed with thousands separators and two decimal places: a
    sign, groups of three digits between commas, a point and two digits,
    the digits being those of the nearest number of hundredths; [nan] and
    [inf] for what is not a finite number. *)
Definition separated_two_decimals (v : fvalue) (text : pystr) : Prop :=
  match v with
  | NotANumber => text = "nan"
  | Infinite negative => text = sign_text negative +++ "inf"
  | Finite negative magnitude =>
      exists groups d1 d2,
        text = sign_text negative +++ join "," groups +++ "." +++ [d1; d2] /\
        groups_of_three groups /\
        Forall (fun d => 48 <= d <= 57) (List.concat groups ++ [d1; d2]) /\
        nearest_hundredths magnitude (int_of (List.concat groups ++ [d1; d2]))
  end.

(** The bar and the pie suggestion for a categorical and a numeric name. *)
Definition bar_spec (x y : pystr) : viz_config :=
  {| viz_type := "bar"; viz_x := x; viz_y := y;
     viz_title := y +++ " by " +++ x |}.

Definition pie_spec (x y : pystr) : viz_config :=
  {| viz_type := "pie"; viz_x := x; viz_y := y;
     viz_title := "Distribution of " +++ y +++ " by " +++ x |}.

End Described.

(** ** Tables and questions of the worked scenarios *)

(** The result of the best-selling products query: a text column and two
    numeric ones. *)
Definition top_products_table : DataFrame (F := Exact.exact) :=
  {| nrows := 2;
     columns :=
       [ {| label := "product_name";
            data := ObjectValues [Some ("Laptop" : pystr); Some ("Phone" : pystr)] |};
         {| label := "total_quantity";
            data := NumericValues (Int64Values [3; 4]%Z) |};
         {| label := "total_sales";
            data := NumericValues
                      (Float64Values (F := Exact.exact)
                         [Exact.XNum 1000.5; Exact.XNum 2.25]) |} ] |}.

(** A table with two numeric columns of the same label, as a query that
    selects [amount] twice gives. *)
Definition repeated_amount_table : DataFrame (F := Exact.exact) :=
  {| nrows := 1;
     columns :=
       [ {| label := "region"; data := ObjectValues [Some ("North" : pystr)] |};
         {| label := "amount";
            data := NumericValues
                      (Float64Values (F := Exact.exact) [Exact.XNum 1000.5]) |};
         {| label := "amount";
            data := NumericValues
                      (Float64Values (F := Exact.exact) [Exact.XNum 2.25]) |} ] |}.

(** A table with a text column and two integer columns labelled [a]. *)
Definition repeated_integer_table : DataFrame (F := Exact.exact) :=
  {| nrows := 1;
     columns :=
       [ {| label := "name"; data := ObjectValues [Some ("Laptop" : pystr)] |};
         {| label := "a"; data := NumericValues (Int64Values [3]%Z) |};
         {| label := "a"; data := NumericValues (Int64Values [4]%Z) |} ] |}.

(** An integer column labelled [a], and a column of dates that is labelled
    [a] too. *)
Definition integer_a : column (F := Exact.exact) :=
  {| label := "a"; data := NumericValues (Int64Values [3; 4]%Z) |}.

Definition dates_a : column (F := Exact.exact) :=
  {| label := "a";
     data := OtherValues "datetime64[ns]" [1672531200000000000; 1672617600000000000]%Z |}.

(** A table of no rows with one numeric column named [amount]. *)
Definition empty_amount {F : Float64} (d : numeric) : DataFrame :=
  {| nrows := 0; columns := [ {| label := "amount"; data := NumericValues d |} ] |}.

(** The number of values of a numeric column. *)
Definition numeric_size {F : Float64} (d : numeric) : nat :=
  match d with
  | Int64Values vs => List.length vs
  | Float64Values vs => List.length vs
  end.

(** A chart suggestion whose type is written in capitals. *)
Definition capital_bar : viz_config :=
  {| viz_type := "BAR"; viz_x := "product_name"; viz_y := "total_quantity";
     viz_title := "total_quantity by product_name" |}.

(** The chart types [create_visualization] knows. *)
Definition known_types : list pystr :=
  map of_string ["bar"; "line"; "scatter"; "pie"].

(** ** The page: the script of app.py:178-250 and [get_db_connection] *)

(** [os.environ] after [load_dotenv()]: names and their values. *)
Definition environ : Type := list (pystr * pystr).

(** [os.getenv(name)] *)
Fixpoint getenv (env : environ) (name : pystr) : option pystr :=
  match env with
  | [] => None
  | (k, v) :: rest => if eqb k name then Some v else getenv rest name
  end.

(** The truth value of [os.getenv(...)]: [None] and the empty string are
    false. *)
Definition is_set (value : option pystr) : bool :=
  match value with
  | Some (_ :: _) => true
  | _ => false
  end.

(** The database behind the page: [sqlalchemy.create_engine(url)] and
    [pandas.read_sql_query(sql, engine)], each of which may raise. *)
Class Database {F : Float64} : Type := {
  engine : Type;
  create_engine : pystr -> raising engine;
  read_sql_query : pystr -> engine -> raising DataFrame
}.

(** An entry of [st.session_state.chat_history], app.py:235-239. *)
Record history_item : Type := {
  item_question : pystr;
  item_sql : pystr;
  item_analysis : report
}.

Section Page.

Context {F : Float64} {P : Plotly}.

(** What a run of the script puts on the page, in order. A [with] block
    ([st.spinner], [st.expander]) holds what is written inside it;
    [st_plotly_chart col fig] is [cols[col].plotly_chart(fig, ...)]. *)
#[warnings="-register-all"]
Inductive ui : Type :=
| st_set_page_config (page_title layout : pystr)
| st_title (text : pystr)
| st_error (text : pystr)
| st_warning (text : pystr)
| st_text_area (label : pystr)
| st_button (label : pystr)
| st_spinner (text : pystr) (body : list ui)
| st_code (body language : pystr)
| st_expander (label : pystr) (body : list ui)
| st_dataframe (df : DataFrame)
| st_write (text : pystr)
| st_columns (n : nat)
| st_plotly_chart (col : nat) (fig : figure).

(** The bullet app.py:224 writes before an insight: the three code points
    of the source text, and a space. *)
Definition bullet : pystr := [226; 8364; 162; 32].

Context {D : Database} {Pd : Pandas}.

(** [get_db_connection()], app.py:25-30: what it writes and what it
    returns. Without a connection string it reports and returns [None];
    [create_engine] is not guarded here, its exception reaches the caller. *)
Definition get_db_connection (env : environ)
    : list ui * raising (option engine) :=
  let connection_string := getenv env "DATABASE_URL" in
  match connection_string with
  | Some (c :: rest) =>
      ([], match create_engine (c :: rest) with
           | Ok e => Ok (Some e)
           | Raised e => Raised e
           end)
  | _ =>
      ([st_error "Database connection string not found in environment variables!"],
       Ok None)
  end.

(** The loop of app.py:229-232 from position [idx] on: a figure goes to the
    column [idx % 2]; [create_visualization] has reported its own error
    when it returns [None] for one. A figure is an object with neither
    [__bool__] nor [__len__], so [if fig] tests it against [None]. *)
Fixpoint show_charts (df : DataFrame) (idx : nat) (vizs : list viz_config)
    : list ui :=
  match vizs with
  | [] => []
  | viz_config :: rest =>
      match create_visualization df viz_config with
      | Returns fig => [st_plotly_chart (idx mod 2) fig]
      | ReturnsNone => []
      | Reports message => [st_error message]
      end ++ show_charts df (S idx) rest
  end.

(** What app.py:217-232 writes for an analysis. *)
Definition show_analysis (df : DataFrame) (analysis_result : report) : list ui :=
  [st_write "### Analysis"; st_write (analysis analysis_result);
   st_write "### Key Insights"] ++
  map (fun insight => st_write (bullet +++ insight)) (insights analysis_result) ++
  [st_write "### Visualizations"; st_columns 2] ++
  show_charts df 0 (visualizations analysis_result).

(** The body of the [try] of app.py:204-242, after the query text was
    shown: what is written, and the history. An exception of
    [create_engine] or of [read_sql_query] is caught at app.py:241. An
    engine is an object, true under [if engine]. The dictionary
    [analyze_data] returns is not empty, true under [if analysis_result];
    when it returns [None] it has written its error, and the entry of the
    history, which is made under that [if], is not made. *)
Definition run_query (env : environ) (question sql_query : pystr)
    (chat_history : list history_item) : list ui * list history_item :=
  let '(shown, connection) := get_db_connection env in
  match connection with
  | Raised e => (shown ++ [st_error ("Error executing query: " +++ e)], chat_history)
  | Ok None => (shown, chat_history)
  | Ok (Some engine) =>
      match read_sql_query sql_query engine with
      | Raised e =>
          (shown ++ [st_error ("Error executing query: " +++ e)], chat_history)
      | Ok df =>
          let shown := shown ++ [st_expander "View Raw Data" [st_dataframe df]] in
          match analyze_data df question with
          | Returns analysis_result =>
              (shown ++ show_analysis df analysis_result,
               chat_history ++
               [ {| item_question := question; item_sql := sql_query;
                    item_analysis := analysis_result |} ])
          | ReturnsNone => (shown, chat_history)
          | Reports message => (shown ++ [st_error message], chat_history)
          end
      end
  end.

(** The body of [if st.button("Analyze")], app.py:194-242. [if not question]
    holds for the empty text; [if sql_query] fails for [None] and for the
    empty text, and has no [else]. *)
Definition analyze_button (env : environ) (question : pystr)
    (chat_history : list history_item) : list ui * list history_item :=
  match question with
  | [] => ([st_warning "Please enter a question!"], chat_history)
  | _ :: _ =>
      let sql_query := generate_sql_query question in
      let '(shown, chat_history) :=
        match sql_query with
        | Some (c :: rest) =>
            let '(shown, chat_history) :=
              run_query env question (c :: rest) chat_history in
            (st_code (c :: rest) "sql" :: shown, chat_history)
        | _ => ([], chat_history)
        end in
      ([st_spinner "Analyzing your question..." shown], chat_history)
  end.

(** The expander of one entry of the history, app.py:248-250. *)
Definition show_item (item : history_item) : ui :=
  st_expander ("Question: " +++ firstn 100 (item_question item) +++ "...")
    [st_code (item_sql item) "sql"; st_write (analysis (item_analysis item))].

(** The history, app.py:245-250: latest entry first. *)
Definition show_history (chat_history : list history_item) : list ui :=
  match chat_history with
  | [] => []
  | _ :: _ => st_write "### Previous Analyses" :: map show_item (rev chat_history)
  end.

(** One run of the script: the environment, the session state as the
    previous run left it ([None] before the first run has set
    [chat_history]), the text of the text area and whether the button was
    pressed; it gives the page and the session state. [st.stop()] ends the
    run where it stands. *)
Definition script (env : environ) (session_state : option (list history_item))
    (question : pystr) (pressed : bool)
    : list ui * option (list history_item) :=
  let page := [st_set_page_config "SQL Chat Assistant" "wide";
               st_title "Business Intelligence Chat Assistant"] in
  if negb (is_set (getenv env "OPENAI_API_KEY")) then
    (page ++ [st_error "Please set your OpenAI API key in the .env file!"],
     session_state)
  else
    let chat_history :=
      match session_state with
      | None => []
      | Some chat_history => chat_history
      end in
    let page := page ++ [st_text_area "Ask your business question:";
                         st_button "Analyze"] in
    let '(shown, chat_history) :=
      if pressed then analyze_button env question chat_history
      else ([], chat_history) in
    (page ++ shown ++ show_history chat_history, Some chat_history).

End Page.

Section PageDescribed.

Context {F : Float64} {P : Plotly} {D : Database} {Pd : Pandas}.

(** The question [question] is answered with the table [df] for the query
    [sql]: a query text is selected, the connection string is set, the
    engine is made and the query gives [df]. *)
Definition answered (env : environ) (question sql : pystr) (df : DataFrame) : Prop :=
  question <> [] /\
  generate_sql_query question = Some sql /\
  exists url e,
    getenv env "DATABASE_URL" = Some url /\ url <> [] /\
    create_engine url = Ok e /\ read_sql_query sql e = Ok df.

(** What the loop of app.py:229-232 writes for one constructor call: the
    chart in its column, or the error [create_visualization] reports. *)
Definition chart_or_error (col : nat) (r : raising figure) : list ui :=
  match r with
  | Ok fig => [st_plotly_chart col fig]
  | Raised e => [st_error ("Error creating visualization: " +++ e)]
  end.

(** The first lines of every page, and the two widgets. *)
Definition page_head : list ui :=
  [st_set_page_config "SQL Chat Assistant" "wide";
   st_title "Business Intelligence Chat Assistant"].

Definition page_widgets : list ui :=
  [st_text_area "Ask your business question:"; st_button "Analyze"].

(** The label of an expander (the empty text for anything else). *)
Definition ui_label (u : ui) : pystr :=
  match u with
  | st_expander label _ => label
  | _ => []
  end.

(** The history a run starts from. *)
Definition history_of (session_state : option (list history_item))
    : list history_item :=
  match session_state with
  | None => []
  | Some chat_history => chat_history
  end.

End PageDescribed.

(** A visit: one run of the script, with the database as it is then. *)
Record visit {F : Float64} : Type := {
  visit_database : Database;
  visit_env : environ;
  visit_question : pystr;
  visit_pressed : bool
}.

(** The session state after a sequence of visits. *)
Definition visits {F : Float64} {P : Plotly} {Pd : Pandas} (vs : list visit)
    (session_state : option (list history_item)) : option (list history_item) :=
  fold_left (fun state v =>
               snd (script (D := visit_database v) (visit_env v) state
                      (visit_question v) (visit_pressed v)))
            vs session_state.

(** An entry of the history that records an answer: the question is not
    empty, the query text is the one the selector gives for it, one of the
    five, and the analysis is that of some table for the question. *)
Definition sound_item {F : Float64} {Pd : Pandas} (item : history_item) : Prop :=
  item_question item <> [] /\
  generate_sql_query (item_question item) = Some (item_sql item) /\
  In (item_sql item) sql_templates /\
  exists df, analyze_data df (item_question item) = Returns (item_analysis item).

(** A database that answers every query with the same table, and refuses
    the connection strings that do not start with [sqlite]. *)
Module Canned.

#[export] Instance canned : Database (F := Exact.exact) := {|
  engine := pystr;
  create_engine := fun url =>
    if starts_with "sqlite" url then Ok url
    else Raised "Could not parse SQLAlchemy URL";
  read_sql_query := fun sql url =>
    if eqb sql customer_spending_sql then Raised "no such table: sales"
    else Ok top_products_table
|}.

Definition env : environ :=
  [(of_string "OPENAI_API_KEY", of_string "sk-test");
   (of_string "DATABASE_URL", of_string "sqlite:///business.db")].

(** The same environment with no connection string. *)
Definition env_no_database : environ :=
  [(of_string "OPENAI_API_KEY", of_string "sk-test")].

(** The report of an analysis that returned one (an empty one else). *)
Definition report_of (o : outcome report) : report :=
  match o with
  | Returns r => r
  | _ => {| analysis := []; insights := []; visualizations := [] |}
  end.

(** A history of two answers. *)
Definition two_answers : list history_item :=
  [ {| item_question := "Show me sales by region";
       item_sql := sales_by_region_sql;
       item_analysis :=
         report_of (analyze_data (Pd := Frames.series_format)
                      top_products_table "Show me sales by region") |};
    {| item_question := "What are our top products?";
       item_sql := top_products_sql;
       item_analysis :=
         report_of (analyze_data (Pd := Frames.series_format)
                      top_products_table "What are our top products?") |} ].

(** A chart of an unknown type, then a pie chart. *)
Definition donut_then_pie : list viz_config :=
  [ {| viz_type := "donut"; viz_x := "product_name"; viz_y := "total_sales";
       viz_title := "Share of sales" |};
    {| viz_type := "pie"; viz_x := "product_name"; viz_y := "total_sales";
       viz_title := "Share of sales" |} ].

End Canned.

(** ** The sample database: the script of create_database.py *)

(** [random.randint(a, b)]: an integer between [a] and [b], both ends
    included, and the generator after the draw. *)
Class Random : Type := {
  rng : Type;
  randint : rng -> Z -> Z -> Z * rng;
  randint_range : forall g a b,
    (a <= b)%Z -> (a <= fst (randint g a b) <= b)%Z
}.

(** What the script needs of Python's floats besides [Float64]: the float
    a decimal literal of the source denotes, and the product of two
    floats. *)
Class FloatProduct {F : Float64} : Type := {
  float_literal : Q -> float;
  fmul : float -> float -> float
}.

Module SampleDb.

(** [datetime.date]: a day, by its ordinal in the proleptic Gregorian
    calendar, computed as the [datetime] module does. *)
Definition is_leap (year : Z) : bool :=
  ((year mod 4 =? 0) && (negb (year mod 100 =? 0) || (year mod 400 =? 0)))%Z.

Definition days_before_year (year : Z) : Z :=
  let y := (year - 1)%Z in
  (y * 365 + y / 4 - y / 100 + y / 400)%Z.

Definition days_before_month (year : Z) (month : nat) : Z :=
  (nth month [-1; 0; 31; 59; 90; 120; 151; 181; 212; 243; 273; 304; 334] 0 +
   if (2 <? month)%nat && is_leap year then 1 else 0)%Z.

(** [datetime.date(year, month, day)] *)
Definition date (year : Z) (month : nat) (day : Z) : Z :=
  (days_before_year year + days_before_month year month + day)%Z.

Section Script.

Context {F : Float64} {M : FloatProduct} {R : Random}.

(** The rows of the three tables, create_database.py:10-41, as the script
    writes them: a date column holds the day, and a price or an amount is
    the float the script stored. The declared types leave SQLite free to
    hold [NULL] or a text in these columns; a file with such rows, or with
    tables of other columns, is not a [database]. *)
Record customer : Type := {
  customer_id : Z;
  customer_name : pystr;
  email : pystr;
  region : pystr;
  join_date : pystr
}.

Record product : Type := {
  product_id : Z;
  product_name : pystr;
  category : pystr;
  price : float;
  stock : Z
}.

Record sale : Type := {
  sale_id : Z;
  sale_customer_id : Z;
  sale_product_id : Z;
  quantity : Z;
  sale_date : Z;
  total_amount : float
}.

(** The file [business.db]. A table the file does not have yet is made
    empty by [CREATE TABLE IF NOT EXISTS]: it is the empty list. *)
Record database : Type := {
  customers : list customer;
  products : list product;
  sales : list sale
}.

Definition empty : database :=
  {| customers := []; products := []; sales := [] |}.

(** The key SQLite gives a row inserted with no value for its
    [INTEGER PRIMARY KEY]: 1 in an empty table, else one more than the
    largest key in use. This is what SQLite does while the largest key is
    below 2^63 - 1; at that key it looks for an unused one at random, which
    is not modelled: see [room_for_keys]. *)
Definition next_rowid (ids : list Z) : Z :=
  match ids with
  | [] => 1
  | i :: rest => (fold_left Z.max rest i + 1)%Z
  end.

(** create_database.py:44-50 *)
Definition customers_data : list (pystr * pystr * pystr * pystr) :=
  [ (of_string "John Doe", of_string "john@example.com", of_string "North", of_string "2023-01-15");
    (of_string "Jane Smith", of_string "jane@example.com", of_string "South", of_string "2023-02-20");
    (of_string "Bob Wilson", of_string "bob@example.com", of_string "East", of_string "2023-03-10");
    (of_string "Alice Brown", of_string "alice@example.com", of_string "West", of_string "2023-04-05");
    (of_string "Charlie Davis", of_string "charlie@example.com", of_string "North", of_string "2023-05-12") ].

(** create_database.py:52-61 *)
Definition products_data : list (pystr * pystr * float * Z) :=
  [ (of_string "Laptop Pro", of_string "Electronics", float_literal 1299.99, 50%Z);
    (of_string "Office Chair", of_string "Furniture", float_literal 199.99, 100%Z);
    (of_string "Coffee Maker", of_string "Appliances", float_literal 79.99, 75%Z);
    (of_string "Wireless Mouse", of_string "Electronics", float_literal 29.99, 200%Z);
    (of_string "Desk Lamp", of_string "Furniture", float_literal 39.99, 150%Z);
    (of_string "Keyboard", of_string "Electronics", float_literal 89.99, 120%Z);
    (of_string "Monitor", of_string "Electronics", float_literal 299.99, 80%Z);
    (of_string "Filing Cabinet", of_string "Furniture", float_literal 149.99, 40%Z) ].

(** One [INSERT INTO customers (name, email, region, join_date)]. *)
Definition insert_customer (db : database)
    (row : pystr * pystr * pystr * pystr) : database :=
  let '(name, mail, reg, joined) := row in
  {| customers := customers db ++
       [ {| customer_id := next_rowid (map customer_id (customers db));
            customer_name := name; email := mail; region := reg;
            join_date := joined |} ];
     products := products db;
     sales := sales db |}.

(** One [INSERT INTO products (name, category, price, stock)]. *)
Definition insert_product (db : database)
    (row : pystr * pystr * float * Z) : database :=
  let '(name, cat, p, s) := row in
  {| customers := customers db;
     products := products db ++
       [ {| product_id := next_rowid (map product_id (products db));
            product_name := name; category := cat; price := p; stock := s |} ];
     sales := sales db |}.

(** One [INSERT INTO sales (customer_id, product_id, quantity, sale_date,
    total_amount)]. *)
Definition insert_sale (db : database) (row : Z * Z * Z * Z * float) : database :=
  let '(cid, pid, qty, day, amount) := row in
  {| customers := customers db;
     products := products db;
     sales := sales db ++
       [ {| sale_id := next_rowid (map sale_id (sales db));
            sale_customer_id := cid; sale_product_id := pid; quantity := qty;
            sale_date := day; total_amount := amount |} ] |}.

(** [cursor.executemany(insert, rows)]: the rows in order. *)
Definition executemany {A : Type} (insert : database -> A -> database)
    (db : database) (rows : list A) : database :=
  fold_left insert rows db.

(** [SELECT price FROM products WHERE product_id = ?] and [fetchone()]:
    the row of that key, if there is one. *)
Definition select_price (db : database) (id : Z) : option float :=
  option_map price (find (fun p => (product_id p =? id)%Z) (products db)).

(** create_database.py:68-70 *)
Definition start_date : Z := date 2023 1 1.
Definition end_date : Z := date 2024 3 31.
Definition days_between : Z := (end_date - start_date)%Z.

(** The loop of create_database.py:73-85, [n] turns of it: the draws in the
    order of the source, the price read back from the table, the tuple
    added at the end of [sales_data]. [fetchone()] gives [None] when no
    product has the key drawn, and [None[0]] raises [TypeError]. *)
Fixpoint generate_sales (n : nat) (g : rng) (db : database)
    (sales_data : list (Z * Z * Z * Z * float))
    : raising (list (Z * Z * Z * Z * float)) :=
  match n with
  | O => Ok sales_data
  | S n' =>
      let '(random_days, g) := randint g 0 days_between in
      let sale_date := (start_date + random_days)%Z in
      let '(customer_id, g) :=
        randint g 1 (Z.of_nat (List.length customers_data)) in
      let '(product_id, g) :=
        randint g 1 (Z.of_nat (List.length products_data)) in
      let '(quantity, g) := randint g 1 5 in
      match select_price db product_id with
      | None => Raised "'NoneType' object is not subscriptable"
      | Some price =>
          let total_amount := fmul price (of_int quantity) in
          generate_sales n' g db
            (sales_data ++
             [(customer_id, product_id, quantity, sale_date, total_amount)])
      end
  end.

(** The script: the file before, the generator as seeded; the file after
    [conn.commit()], or the exception that ends the script before it (the
    rows inserted until then are not committed). *)
Definition create_database (g : rng) (db : database) : raising database :=
  let db := executemany insert_customer db customers_data in
  let db := executemany insert_product db products_data in
  match generate_sales 200 g db [] with
  | Raised e => Raised e
  | Ok sales_data => Ok (executemany insert_sale db sales_data)
  end.

(** The script run once for each generator of [gs], on the file the run
    before left. *)
Fixpoint runs (gs : list rng) (db : database) : raising database :=
  match gs with
  | [] => Ok db
  | g :: rest =>
      match create_database g db with
      | Raised e => Raised e
      | Ok db' => runs rest db'
      end
  end.

(** The keys [a], [a + 1], ... of [n] rows. *)
Definition keys (a : Z) (n : nat) : list Z :=
  map (fun i => (a + Z.of_nat i)%Z) (seq 0 n).

(** [rows] repeated [k] times. *)
Fixpoint repeated {A : Type} (k : nat) (rows : list A) : list A :=
  match k with
  | O => []
  | S k' => repeated k' rows ++ rows
  end.

(** The values of a row that the script gave, without its key. *)
Definition customer_row (c : customer) : pystr * pystr * pystr * pystr :=
  (customer_name c, email c, region c, join_date c).

Definition product_row (p : product) : pystr * pystr * float * Z :=
  (product_name p, category p, price p, stock p).

Definition sale_row (s : sale) : Z * Z * Z * Z * float :=
  (sale_customer_id s, sale_product_id s, quantity s, sale_date s, total_amount s).

(** A tuple of [sales_data] as the loop makes them: the keys and the
    quantity in the ranges drawn from, the day between the two dates, the
    amount from the price the table gives for the product. *)
Definition drawn_sale (db : database) (row : Z * Z * Z * Z * float) : Prop :=
  let '(cid, pid, qty, day, amount) := row in
  (1 <= cid <= 5)%Z /\ (1 <= pid <= 8)%Z /\ (1 <= qty <= 5)%Z /\
  (start_date <= day <= end_date)%Z /\
  exists p, select_price db pid = Some p /\ amount = fmul p (of_int qty).

(** A sale that refers to rows of the database, in the ranges the script
    draws from, with the amount its product and quantity give. *)
Definition sale_well_formed (db : database) (s : sale) : Prop :=
  (exists c, In c (customers db) /\ customer_id c = sale_customer_id s) /\
  (exists p, In p (products db) /\ product_id p = sale_product_id s /\
             total_amount s = fmul (price p) (of_int (quantity s))) /\
  (1 <= quantity s <= 5)%Z /\
  (start_date <= sale_date s <= end_date)%Z.

(** A file the script filled [k] times and nothing else touched: the keys
    run from 1, the rows are the sample rows [k] times over, and every sale
    is well formed. *)
Definition filled (k : nat) (db : database) : Prop :=
  map customer_id (customers db) = keys 1 (5 * k) /\
  map customer_row (customers db) = repeated k customers_data /\
  map product_id (products db) = keys 1 (8 * k) /\
  map product_row (products db) = repeated k products_data /\
  map sale_id (sales db) = keys 1 (200 * k) /\
  Forall (sale_well_formed db) (sales db).

(** The keys of the file leave room for the rows of one run: the largest
    key of each table stays below 2^63 - 1 until the last row is in, so
    that every insertion gets its key by [next_rowid]. *)
Definition room_for_keys (db : database) : Prop :=
  Forall (fun id => (id + 5 < 2 ^ 63)%Z) (map customer_id (customers db)) /\
  Forall (fun id => (id + 8 < 2 ^ 63)%Z) (map product_id (products db)) /\
  Forall (fun id => (id + 200 < 2 ^ 63)%Z) (map sale_id (sales db)).

End Script.

(** A generator that computes: a linear congruential one. *)
#[export] Instance lcg : Random.
Proof.
  refine {| rng := Z;
            randint := fun g a b =>
              ((a + (g / 65536) mod (b - a + 1))%Z,
               ((g * 1103515245 + 12345) mod 2147483648)%Z) |}.
  intros g a b Hab. simpl.
  pose proof (Z.mod_pos_bound (g / 65536) (b - a + 1) ltac:(lia)). lia.
Defined.

#[export] Instance exact_product : FloatProduct (F := Exact.exact) :=
  @Build_FloatProduct Exact.exact
    (fun q => Exact.XNum q)
    (fun a b =>
       match a, b with
       | Exact.XNum p, Exact.XNum q => Exact.XNum (Qred (p * q))
       | _, _ => Exact.XNaN
       end).

End SampleDb.

(** * Facts about strings *)

Lemma contains_unfold (needle hay : pystr) :
  contains needle hay =
  starts_with needle hay ||
  match hay with [] => false | _ :: rest => contains needle rest end.
Proof. destruct hay; reflexivity. Qed.

Lemma starts_with_app (needle post : pystr) :
  starts_with needle (needle ++ post) = true.
Proof.
  induction needle as [|c needle IH]; simpl.
  - reflexivity.
  - now rewrite N.eqb_refl, IH.
Qed.

Lemma contains_app (needle pre post : pystr) :
  contains needle (pre ++ needle ++ post) = true.
Proof.
  induction pre as [|c pre IH].
  - rewrite contains_unfold. simpl app. now rewrite starts_with_app.
  - simpl. rewrite IH. apply orb_true_r.
Qed.

Lemma starts_with_prefix (needle hay : pystr) :
  starts_with needle hay = true -> exists post, hay = needle ++ post.
Proof.
  revert hay. induction needle as [|c needle IH]; intros hay H.
  - now exists hay.
  - destruct hay as [|h hay]; simpl in H; [discriminate|].
    apply andb_true_iff in H as [Hc Hs]. apply N.eqb_eq in Hc. subst h.
    destruct (IH _ Hs) as [post ->]. now exists post.
Qed.

Lemma contains_split (needle hay : pystr) :
  contains needle hay = true ->
  exists pre post, hay = pre ++ needle ++ post.
Proof.
  induction hay as [|h hay IH]; rewrite contains_unfold; intros H;
    apply orb_true_iff in H as [H|H].
  - destruct (starts_with_prefix _ _ H) as [post E]. now exists [], post.
  - discriminate.
  - destruct (starts_with_prefix _ _ H) as [post E]. now exists [], post.
  - destruct (IH H) as (pre & post & ->). now exists (h :: pre), post.
Qed.

Lemma lower_app (a b : pystr) : lower (a ++ b) = lower a ++ lower b.
Proof. apply flat_map_app. Qed.

Lemma lower_cp_capital (c k : N) : same_letter c k -> lower_cp k = [k] -> lower_cp c = [k].
Proof.
  intros [->|[Hk <-]] Hp; [exact Hp|].
  unfold lower_cp.
  destruct (N.leb_spec 65 c); [|lia].
  destruct (N.leb_spec c 90); [|lia].
  reflexivity.
Qed.

Lemma lower_run (run kw : pystr) :
  Forall2 same_letter run kw -> plain kw -> lower run = kw.
Proof.
  induction 1 as [|c k run kw Hc _ IH]; intros Hp.
  - reflexivity.
  - inversion Hp as [|? ? Hk Hkw]; subst.
    change (lower (c :: run)) with (lower_cp c ++ lower run).
    now rewrite (lower_cp_capital _ _ Hc Hk), (IH Hkw).
Qed.

(** A keyword written in any letter case is found in the lowered string. *)
Lemma contains_ci_lower (kw q : pystr) :
  plain kw -> contains_ci kw q -> contains kw (lower q) = true.
Proof.
  intros Hp (pre & run & post & -> & Hrun).
  rewrite !lower_app, (lower_run _ _ Hrun Hp).
  apply contains_app.
Qed.

Lemma eqb_eq (a b : pystr) : eqb a b = true <-> a = b.
Proof.
  revert b. induction a as [|x a IH]; intros [|y b]; simpl; split;
    try discriminate; try reflexivity; intros H.
  - apply andb_true_iff in H as [Hx Ha]. apply N.eqb_eq in Hx.
    apply IH in Ha. now subst.
  - injection H as -> ->. rewrite N.eqb_refl. now apply IH.
Qed.

Lemma join_cons (sep p : pystr) (ps : list pystr) :
  ps <> [] -> join sep (p :: ps) = p ++ sep ++ join sep ps.
Proof. destruct ps; [congruence | reflexivity]. Qed.

(** Every part is found in the joined string. *)
Lemma contains_join (sep part : pystr) (parts : list pystr) :
  In part parts -> contains part (join sep parts) = true.
Proof.
  induction parts as [|p ps IH]; intros Hin; [contradiction|].
  destruct ps as [|p' ps].
  - destruct Hin as [->|[]]. simpl.
    rewrite <- (app_nil_r part) at 2. apply (contains_app part [] []).
  - rewrite join_cons by discriminate.
    destruct Hin as [->|Hin].
    + apply (contains_app part []).
    + destruct (contains_split _ _ (IH Hin)) as (pre & post & ->).
      rewrite !app_assoc, <- (app_assoc _ part post). apply contains_app.
Qed.

Ltac plain_keyword := repeat constructor.

(** Closes [Forall2 same_letter run kw] on two literals. *)
Ltac letter_by_letter :=
  unfold of_string; simpl;
  repeat (apply Forall2_cons;
          [first [left; reflexivity | right; split; [lia | reflexivity]] |]);
  apply Forall2_nil.

(** * The query selector *)

(** [generate_sql_query] returns the text of the [return] statement the
    question reaches. *)
Lemma generate_sql_query_selected (q : pystr) :
  generate_sql_query q = option_map sql_of (selected q).
Proof.
  unfold generate_sql_query, selected. cbv zeta.
  repeat match goal with
         | |- context [if ?b then _ else _] => destruct b
         end; reflexivity.
Qed.

(** When it returns a text, the text is one of the five. *)
Lemma generate_sql_query_in_templates (q sql : pystr) :
  generate_sql_query q = Some sql -> In sql sql_templates.
Proof.
  rewrite generate_sql_query_selected.
  destruct (selected q) as [[]|]; simpl; intros H; inversion H; subst; auto 6.
Qed.

(** The function ends without a [return] exactly on the questions that
    mention [top] or [best] and no [product]. *)
Lemma generate_sql_query_none_iff (q : pystr) :
  generate_sql_query q = None <->
  (contains "top" (lower q) || contains "best" (lower q)) &&
  negb (contains "products" (lower q) || contains "product" (lower q)) = true.
Proof.
  unfold generate_sql_query. cbv zeta.
  repeat match goal with
         | |- context [if ?b then _ else _] => destruct b
         end; simpl; split; intros H; try discriminate; reflexivity.
Qed.

(** A question with none of the keywords gets the default query; the empty
    question is one. *)
Lemma generate_sql_query_empty : generate_sql_query [] = Some default_sql.
Proof. reflexivity. Qed.

(** No text has a placeholder left in it. *)
Lemma sql_templates_closed :
  forall sql, In sql sql_templates -> contains "{" sql = false.
Proof.
  intros sql H. simpl in H.
  repeat (destruct H as [<-|H]; [vm_compute; reflexivity|]).
  contradiction.
Qed.

(** C1, at the question [top sales by region]. The question mentions [top],
    no [product], and [sales by region]; the function returns [None], not
    the sales-by-region text: the branch of [top] is entered, its inner test
    fails, and the [elif] that looks for [sales by region] is skipped. *)
Theorem top_sales_by_region_returns_none :
  let q : pystr := "top sales by region" in
  contains "top" (lower q) = true /\
  contains "product" (lower q) = false /\
  contains "products" (lower q) = false /\
  contains "sales by region" (lower q) = true /\
  generate_sql_query q = None /\
  generate_sql_query q <> Some sales_by_region_sql.
Proof. vm_compute. repeat split; discriminate. Qed.

(** C2, at the question [Show me the top customers]. The function returns
    [None] there, none of the five texts: it is not total. *)
Theorem top_customers_returns_none :
  generate_sql_query "Show me the top customers" = None /\
  forall sql, In sql sql_templates ->
    generate_sql_query "Show me the top customers" <> Some sql.
Proof.
  assert (E : generate_sql_query "Show me the top customers" = None)
    by (vm_compute; reflexivity).
  split; [exact E|]. intros sql _. rewrite E. discriminate.
Qed.

(** C3. A question that contains [top] and [product], each in any letter
    case, gets the best-selling products text, and so does one that
    contains [best] and [product]. *)
Theorem top_or_best_product_selects_top_products (q : pystr) :
  contains_ci "top" q \/ contains_ci "best" q ->
  contains_ci "product" q ->
  generate_sql_query q = Some top_products_sql.
Proof.
  intros Hkey Hprod. unfold generate_sql_query. cbv zeta.
  assert (Hk : contains "top" (lower q) || contains "best" (lower q) = true).
  { apply orb_true_iff.
    destruct Hkey as [H|H]; [left|right];
      (apply contains_ci_lower; [plain_keyword | exact H]). }
  rewrite Hk.
  rewrite (contains_ci_lower "product" q) by (plain_keyword || exact Hprod).
  now rewrite orb_true_r.
Qed.

Lemma top_or_best_product_selects_top_products_witness :
  generate_sql_query "What are our TOP Products?" = Some top_products_sql /\
  generate_sql_query "Best product this month" = Some top_products_sql.
Proof.
  split.
  - apply (top_or_best_product_selects_top_products "What are our TOP Products?").
    + left. exists ("What are our " : pystr), ("TOP" : pystr), (" Products?" : pystr).
      split; [reflexivity | letter_by_letter].
    + exists ("What are our TOP " : pystr), ("Product" : pystr), ("s?" : pystr).
      split; [reflexivity | letter_by_letter].
  - apply (top_or_best_product_selects_top_products "Best product this month").
    + right. exists ([] : pystr), ("Best" : pystr), (" product this month" : pystr).
      split; [reflexivity | letter_by_letter].
    + exists ("Best " : pystr), ("product" : pystr), (" this month" : pystr).
      split; [reflexivity | letter_by_letter].
Defined.

(** C9. A text the function returns is one of five fixed texts with no
    placeholder in it, and it depends on the question only through the
    [return] statement reached: every question that reaches the same one
    gets the same text, code point for code point. *)
Theorem sql_text_is_a_closed_template (q sql : pystr) :
  generate_sql_query q = Some sql ->
  In sql sql_templates /\
  contains "{" sql = false /\
  forall q', selected q' = selected q -> generate_sql_query q' = Some sql.
Proof.
  intros H.
  pose proof (generate_sql_query_in_templates _ _ H) as Hin.
  split; [exact Hin|]. split; [now apply sql_templates_closed|].
  intros q' E. now rewrite generate_sql_query_selected, E, <- generate_sql_query_selected.
Qed.

Lemma sql_text_is_a_closed_template_witness :
  generate_sql_query "Who is the best product manager?" = Some top_products_sql.
Proof.
  refine (proj2 (proj2 (sql_text_is_a_closed_template
            "What are our top products?" top_products_sql _)) _ _);
    vm_compute; reflexivity.
Defined.

(** * Numbers *)

(** With fuel for every binary digit, [digits] writes all of [n]. *)
Lemma digits_spec (fuel : nat) (n : N) (acc : pystr) :
  n < 2 ^ N.of_nat fuel ->
  exists ds, digits fuel n acc = ds ++ acc /\ int_of ds = n /\
             Forall (fun d => 48 <= d <= 57) ds.
Proof.
  revert n acc. induction fuel as [|fuel IH]; intros n acc Hn.
  - simpl in Hn. exists []. assert (n = 0) as -> by lia. now simpl.
  - cbn [digits]. cbv zeta.
    rewrite Nat2N.inj_succ, N.pow_succ_r' in Hn.
    pose proof (N.mod_lt n 10 ltac:(lia)) as Hmod.
    pose proof (N.div_mod n 10 ltac:(lia)) as Hdiv.
    revert Hn Hmod Hdiv IH.
    generalize (n / 10) (n mod 10) (2 ^ N.of_nat fuel).
    intros q r bound Hn Hmod Hdiv IH.
    destruct (N.eqb_spec q 0) as [E|E].
    + exists [48 + r]. repeat split.
      * unfold int_of. cbn [fold_left]. lia.
      * constructor; [lia | constructor].
    + assert (Hlt : q < bound) by lia.
      destruct (IH q ((48 + r) :: acc) Hlt) as (ds & E1 & E2 & E3).
      exists (ds ++ [48 + r]). repeat split.
      * now rewrite E1, <- app_assoc.
      * unfold int_of in *. rewrite fold_left_app, E2. cbn [fold_left]. lia.
      * apply Forall_app. split; [exact E3|]. constructor; [lia | constructor].
Qed.

(** [str_of_N n] is a string of decimal digits that writes [n]. *)
Lemma str_of_N_spec (n : N) :
  int_of (str_of_N n) = n /\ Forall (fun d => 48 <= d <= 57) (str_of_N n).
Proof.
  unfold str_of_N.
  destruct (digits_spec (S (N.to_nat (N.log2 n))) n []) as (ds & E & Hv & Hd).
  - rewrite Nat2N.inj_succ, N2Nat.id.
    destruct (N.eq_dec n 0) as [->|Hn]; [reflexivity|].
    apply N.log2_spec. lia.
  - rewrite E, app_nil_r. now split.
Qed.

(** * Printed numbers *)

Lemma digits_acc (fuel : nat) (n : N) (acc : pystr) :
  exists ds, digits fuel n acc = ds ++ acc.
Proof.
  revert n acc. induction fuel as [|fuel IH]; intros n acc.
  - now exists [].
  - cbn [digits]. cbv zeta. destruct (n / 10 =? 0).
    + now exists [48 + n mod 10].
    + destruct (IH (n / 10) ((48 + n mod 10) :: acc)) as [ds ->].
      exists (ds ++ [48 + n mod 10]). now rewrite <- app_assoc.
Qed.

Lemma str_of_N_not_nil (n : N) : str_of_N n <> [].
Proof.
  unfold str_of_N. cbn [digits]. cbv zeta. destruct (n / 10 =? 0).
  - discriminate.
  - destruct (digits_acc (N.to_nat (N.log2 n)) (n / 10) [48 + n mod 10]) as [ds ->].
    now destruct ds.
Qed.

Lemma join_snoc (sep p : pystr) (ps : list pystr) :
  ps <> [] -> join sep (ps ++ [p]) = join sep ps ++ sep ++ p.
Proof.
  induction ps as [|x ps IH]; intros H; [congruence|].
  destruct ps as [|y ps].
  - reflexivity.
  - change ((x :: y :: ps) ++ [p]) with (x :: ((y :: ps) ++ [p])).
    rewrite join_cons by (now destruct ps).
    rewrite IH by discriminate.
    rewrite (join_cons sep x (y :: ps)) by discriminate.
    now rewrite <- !app_assoc.
Qed.

Lemma rev_join (sep : pystr) (parts : list pystr) :
  rev (join sep parts) = join (rev sep) (map (@rev N) (rev parts)).
Proof.
  induction parts as [|p ps IH]; [reflexivity|].
  destruct ps as [|q ps].
  - reflexivity.
  - rewrite join_cons by discriminate.
    rewrite !rev_app_distr, IH, <- app_assoc.
    change (rev (p :: q :: ps)) with (rev (q :: ps) ++ [p]).
    rewrite map_app. change (map (@rev N) [p]) with [rev p].
    rewrite join_snoc; [reflexivity|].
    intros E. apply map_eq_nil in E.
    apply (f_equal (@List.length pystr)) in E.
    rewrite length_rev in E. discriminate.
Qed.

Lemma rev_concat (l : list pystr) :
  rev (List.concat l) = List.concat (map (@rev N) (rev l)).
Proof.
  induction l as [|x l IH]; [reflexivity|].
  simpl. rewrite rev_app_distr, IH, map_app, concat_app. simpl.
  now rewrite app_nil_r.
Qed.

(** The digits, last first, cut in threes by [commas]. *)
Lemma commas_chunks (fuel : nat) (rds : pystr) :
  (List.length rds <= fuel)%nat -> rds <> [] ->
  exists front last,
    commas rds = join [44] (front ++ [last]) /\
    List.concat (front ++ [last]) = rds /\
    Forall (fun g => List.length g = 3%nat) front /\
    (1 <= List.length last <= 3)%nat.
Proof.
  revert rds. induction fuel as [|fuel IH]; intros rds Hlen Hne.
  - destruct rds; [congruence | simpl in Hlen; lia].
  - destruct rds as [|a [|b [|c [|d rest]]]]; try congruence.
    + exists [], [a]. simpl. repeat split; auto; lia.
    + exists [], [a; b]. simpl. repeat split; auto; lia.
    + exists [], [a; b; c]. simpl. repeat split; auto; lia.
    + destruct (IH (d :: rest)) as (front & last & E & C & Hf & Hl).
      { simpl in *. lia. }
      { discriminate. }
      exists ([a; b; c] :: front), last.
      change (commas (a :: b :: c :: d :: rest))
        with (a :: b :: c :: 44 :: commas (d :: rest)).
      rewrite E. repeat split.
      * change (([a; b; c] :: front) ++ [last])
          with ([a; b; c] :: (front ++ [last])).
        rewrite join_cons by (now destruct front). reflexivity.
      * simpl. now rewrite C.
      * now constructor.
      * lia.
      * lia.
Qed.

(** The integer part is printed in groups of three digits between commas. *)
Lemma grouped_groups (n : N) :
  exists groups,
    grouped n = join [44] groups /\
    List.concat groups = str_of_N n /\
    groups_of_three groups.
Proof.
  unfold grouped.
  destruct (commas_chunks (List.length (rev (str_of_N n))) (rev (str_of_N n)))
    as (front & last & E & C & Hf & Hl).
  - lia.
  - intros H. apply (f_equal (@rev N)) in H. rewrite rev_involutive in H.
    now apply (str_of_N_not_nil n).
  - exists (map (@rev N) (rev (front ++ [last]))).
    rewrite E, rev_join. split; [reflexivity|]. split.
    + now rewrite <- rev_concat, C, rev_involutive.
    + rewrite rev_app_distr. simpl. split.
      * now rewrite length_rev.
      * apply Forall_map. apply Forall_rev. revert Hf. apply Forall_impl.
        intros g Hg. now rewrite length_rev.
Qed.

Lemma int_of_app (a b : pystr) :
  int_of (a ++ b) = fold_left (fun acc d => 10 * acc + (d - 48)) b (int_of a).
Proof. unfold int_of. apply fold_left_app. Qed.

(** [hundredths] gives a nearest number of hundredths. *)
Lemma hundredths_nearest (m : Q) : nearest_hundredths m (Exact.hundredths m).
Proof.
  unfold nearest_hundredths, Exact.hundredths. cbv zeta.
  pose proof (Z.div_mod (Z.abs (Qnum m) * 100) (Zpos (Qden m)) ltac:(lia)) as Hdm.
  pose proof (Z.mod_pos_bound (Z.abs (Qnum m) * 100) (Zpos (Qden m)) ltac:(lia)) as Hb.
  assert (Hq : (0 <= Z.abs (Qnum m) * 100 / Zpos (Qden m))%Z)
    by (apply Z.div_pos; lia).
  revert Hdm Hb Hq.
  generalize (Z.abs (Qnum m) * 100 / Zpos (Qden m))%Z as quo.
  generalize ((Z.abs (Qnum m) * 100) mod Zpos (Qden m))%Z as rem.
  generalize (Z.abs (Qnum m) * 100)%Z as a.
  generalize (Zpos (Qden m)) as d.
  intros d a rem quo Hdm Hb Hq.
  destruct ((2 * rem >? d)%Z || ((2 * rem =? d)%Z && Z.odd quo)) eqn:Up.
  - apply orb_true_iff in Up.
    assert (d <= 2 * rem)%Z.
    { destruct Up as [Up|Up]; [lia|].
      apply andb_true_iff in Up as [Up _]. lia. }
    rewrite Z2N.id by lia. nia.
  - apply orb_false_iff in Up as [Up _].
    rewrite Z2N.id by lia. nia.
Qed.

Lemma two_digits_digits (n : N) :
  n < 100 ->
  Forall (fun d => 48 <= d <= 57) (Exact.two_digits n) /\
  forall acc, fold_left (fun acc d => 10 * acc + (d - 48)) (Exact.two_digits n) acc =
              100 * acc + n.
Proof.
  intros Hn. unfold Exact.two_digits.
  pose proof (N.div_mod n 10 ltac:(lia)) as Hdm.
  pose proof (N.mod_lt n 10 ltac:(lia)) as Hm.
  assert (Hq : n / 10 < 10) by (apply N.Div0.div_lt_upper_bound; lia).
  revert Hdm Hm Hq. generalize (n / 10) as quo. generalize (n mod 10) as rem.
  intros rem quo Hdm Hm Hq. split.
  - repeat constructor; lia.
  - intros acc. cbn [fold_left]. lia.
Qed.

(** What [two_decimals] prints has thousands separators and two decimal
    places. *)
Lemma two_decimals_separated (v : fvalue) :
  separated_two_decimals v (two_decimals v).
Proof.
  destruct v as [|negative|negative m]; try reflexivity.
  unfold separated_two_decimals, two_decimals. cbv zeta.
  destruct (grouped_groups (Exact.hundredths m / 100)) as (groups & Eg & Cg & Hg).
  pose proof (N.mod_lt (Exact.hundredths m) 100 ltac:(lia)) as Hlt.
  destruct (two_digits_digits _ Hlt) as [Hd Hv].
  exists groups, (48 + Exact.hundredths m mod 100 / 10),
    (48 + (Exact.hundredths m mod 100) mod 10).
  split; [now rewrite Eg|]. split; [exact Hg|].
  destruct (str_of_N_spec (Exact.hundredths m / 100)) as [Hint Hdig].
  split.
  - apply Forall_app. split; [now rewrite Cg | exact Hd].
  - rewrite int_of_app, Cg, Hint.
    change [48 + Exact.hundredths m mod 100 / 10;
            48 + (Exact.hundredths m mod 100) mod 10]
      with (Exact.two_digits (Exact.hundredths m mod 100)).
    rewrite Hv.
    replace (100 * (Exact.hundredths m / 100) + Exact.hundredths m mod 100)
      with (Exact.hundredths m)
      by (apply N.div_mod; lia).
    apply hundredths_nearest.
Qed.

(** The format [,.2f] of a float has thousands separators and two
    decimal places. *)
Lemma format_2f_separated {F : Float64} {T : FloatText} (v : float) :
  separated_two_decimals (classify v) (format_2f v).
Proof. rewrite format_2f_classify. apply two_decimals_separated. Qed.

(** * Letter case *)

Lemma lower_cp_cases (c : N) :
  (65 <= c <= 90 /\ lower_cp c = [c + 32]) \/
  (c = 304 /\ lower_cp c = [105; 775]) \/
  (c = 8490 /\ lower_cp c = [107]) \/
  lower_cp c = [c].
Proof.
  unfold lower_cp.
  destruct (N.leb_spec 65 c); destruct (N.leb_spec c 90); simpl;
    try (left; split; [lia | reflexivity]);
    destruct (N.eqb_spec c 304); auto;
    destruct (N.eqb_spec c 8490); auto.
Qed.

(** A keyword found at the head of the lowered string is written at the
    head of the string, in some letter case. *)
Lemma starts_with_lower_ci (kw s : pystr) :
  Forall own_letter kw ->
  starts_with kw (lower s) = true ->
  exists run post, s = run ++ post /\ Forall2 same_letter run kw.
Proof.
  revert s. induction kw as [|k kw IH]; intros s Hsafe H.
  - exists [], s. split; [reflexivity | constructor].
  - inversion Hsafe as [|? ? (Hi & Hd & Hk) Hrest]; subst.
    destruct s as [|c s]; [discriminate|].
    change (lower (c :: s)) with (lower_cp c ++ lower s) in H.
    destruct (lower_cp_cases c) as [[Hc E]|[[-> E]|[[-> E]|E]]];
      rewrite E in H; simpl in H;
      apply andb_true_iff in H as [Hkc H]; apply N.eqb_eq in Hkc;
      try congruence;
      destruct (IH s Hrest H) as (run & post & -> & Hrun);
      exists (c :: run), post; (split; [reflexivity|]);
      constructor; try assumption.
    + right. lia.
    + left. congruence.
Qed.

(** A keyword found in the lowered string is written in the string, in
    some letter case. *)
Lemma contains_lower_ci (kw s : pystr) :
  Forall own_letter kw ->
  contains kw (lower s) = true -> contains_ci kw s.
Proof.
  intros Hsafe. destruct kw as [|k kw].
  { intros _. exists [], [], s. split; [reflexivity | constructor]. }
  inversion Hsafe as [|? ? (Hi & Hd & Hk) _]; subst.
  induction s as [|c s IH]; intros H.
  - discriminate.
  - rewrite contains_unfold in H. apply orb_true_iff in H as [H|H].
    + destruct (starts_with_lower_ci _ _ Hsafe H) as (run & post & E & Hrun).
      exists [], run, post. now split.
    + assert (Hs : contains (k :: kw) (lower s) = true).
      { change (lower (c :: s)) with (lower_cp c ++ lower s) in H.
        destruct (lower_cp_cases c) as [[Hc E]|[[-> E]|[[-> E]|E]]];
          rewrite E in H; try exact H.
        change (contains (k :: kw) (775 :: lower s) = true) in H.
        rewrite contains_unfold in H. cbn [starts_with] in H.
        destruct (N.eqb_spec k 775); [congruence|]. exact H. }
      destruct (IH Hs) as (pre & run & post & -> & Hrun).
      exists (c :: pre), run, post. now split.
Qed.

(** * The analyzer *)

Section Analyzer.

Context {F : Float64} {Pd : Pandas}.

(** The loop of app.py:121-130 adds, at the end of each list, the lines and
    the insights of the columns in order. *)
Lemma analyze_loop (cols : list (pystr * numeric)) (lines ins : list pystr) :
  fold_left analyze_column cols (lines, ins) =
  (lines ++ flat_map (fun col => [total_line col; average_line col]) cols,
   ins ++ flat_map (fun col => if names_money col
                               then [total_insight col; average_insight col]
                               else []) cols).
Proof.
  revert lines ins.
  induction cols as [|[name d] cols IH]; intros lines ins; simpl.
  - now rewrite !app_nil_r.
  - unfold names_money at 1, total_line at 1, average_line at 1,
      total_insight at 1, average_insight at 1. simpl fst. simpl snd.
    destruct (contains "amount" (lower name) || contains "sales" (lower name));
      rewrite IH, <- !app_assoc; reflexivity.
Qed.

(** The loop ends at the first label that is not that of a Series. *)
Lemma analyze_columns_find (df : DataFrame) (cols : list (pystr * numeric))
    (acc : list pystr * list pystr) :
  analyze_columns df cols acc =
  match find (fun col => negb (is_series df (fst col))) cols with
  | None => Ok (fold_left analyze_column cols acc)
  | Some col => Raised (frame_error (getitem df (fst col)))
  end.
Proof.
  revert acc. induction cols as [|[col series] cols IH]; intros acc.
  - reflexivity.
  - cbn [analyze_columns find fst]. unfold is_series.
    destruct (getitem df col) as [|c [|c' frame]] eqn:E; cbn [negb fst];
      rewrite ?E; try reflexivity.
    apply IH.
Qed.

(** The two ways [analyze_data] ends: the report in closed form, or the
    error of the first label that several columns carry. *)
Lemma analyze_data_cases (df : DataFrame) (q : pystr) :
  analyze_data df q =
  match find (fun col => negb (is_series df (fst col))) (numeric_cols df) with
  | None =>
      Returns {| analysis := join [10] (summary_lines df);
                 insights := money_insights df;
                 visualizations := suggest (categorical_cols df) (numeric_cols df) |}
  | Some col =>
      Reports ("Error analyzing data: " +++ frame_error (getitem df (fst col)))
  end.
Proof.
  unfold analyze_data. cbv zeta. rewrite analyze_columns_find.
  destruct (find _ (numeric_cols df)); [reflexivity|].
  rewrite analyze_loop. reflexivity.
Qed.

(** A report, when one is returned, is the closed form. *)
Lemma analyze_data_returns (df : DataFrame) (q : pystr) (r : report) :
  analyze_data df q = Returns r ->
  r = {| analysis := join [10] (summary_lines df);
         insights := money_insights df;
         visualizations := suggest (categorical_cols df) (numeric_cols df) |}.
Proof.
  rewrite analyze_data_cases.
  destruct (find _ (numeric_cols df)); [discriminate|]. congruence.
Qed.

Lemma length_getitem (df : DataFrame) (l : pystr) :
  List.length (getitem df l) = count_label l (map label (columns df)).
Proof.
  unfold getitem. induction (columns df) as [|c cs IH]; [reflexivity|].
  simpl. destruct (eqb (label c) l); simpl; now rewrite IH.
Qed.

Lemma is_series_count (df : DataFrame) (l : pystr) :
  is_series df l = (count_label l (map label (columns df)) =? 1)%nat.
Proof.
  rewrite <- length_getitem. unfold is_series.
  now destruct (getitem df l) as [|c [|c' frame]].
Qed.

(** The labels of [numeric_cols] are those of the numeric columns. *)
Lemma numeric_cols_labels (df : DataFrame) :
  map fst (numeric_cols df) = map label (numeric_columns df).
Proof.
  unfold numeric_cols, numeric_columns, is_numeric.
  induction (columns df) as [|c cs IH]; [reflexivity|].
  simpl. destruct (data c); simpl; now rewrite IH.
Qed.

(** With no numeric label carried twice, the loop meets Series only. *)
Lemma single_labels_find (df : DataFrame) :
  numeric_labels_single df = true ->
  find (fun col => negb (is_series df (fst col))) (numeric_cols df) = None.
Proof.
  intros H. unfold numeric_labels_single in H. rewrite forallb_forall in H.
  destruct (find _ (numeric_cols df)) as [col|] eqn:E; [|reflexivity].
  apply find_some in E as [Hin Hneg].
  assert (Hl : In (fst col) (map label (numeric_columns df))).
  { rewrite <- numeric_cols_labels. now apply in_map. }
  apply in_map_iff in Hl as (c & Ec & Hc).
  specialize (H c Hc). rewrite Ec, <- is_series_count in H.
  now rewrite H in Hneg.
Qed.

Lemma fold_add (vs : list Z) : fold_right Z.add 0%Z vs = fold_left Z.add vs 0%Z.
Proof.
  rewrite <- fold_left_rev_right.
  assert (H : forall l a, fold_right (fun y x => (x + y)%Z) a l =
                          (a + fold_right Z.add 0 l)%Z).
  { induction l as [|x l IHl]; intros a; simpl; [lia|]. rewrite IHl. lia. }
  rewrite H.
  assert (R : forall l, fold_right Z.add 0%Z (rev l) = fold_right Z.add 0%Z l).
  { induction l as [|x l IHl]; [reflexivity|]. simpl.
    rewrite fold_right_app. simpl.
    assert (G : forall l a, fold_right Z.add a l = (a + fold_right Z.add 0 l)%Z).
    { induction l0 as [|y l0 IH0]; intros a; simpl; [lia|]. rewrite IH0. lia. }
    rewrite G, IHl. lia. }
  rewrite R. lia.
Qed.

Lemma wrap64_int64_of (z : Z) : wrap64 z = int64_of z.
Proof.
  unfold wrap64, int64_of. cbv zeta.
  pose proof (Z.mod_pos_bound z (2 ^ 64) ltac:(lia)) as Hb.
  pose proof (Z.div_mod z (2 ^ 64) ltac:(lia)) as Hdm.
  revert Hb Hdm. generalize (z mod 2 ^ 64)%Z as r. generalize (z / 2 ^ 64)%Z as q.
  intros q r Hb Hdm.
  destruct (Z.ltb_spec r (2 ^ 63)) as [Hlt|Hge].
  - assert (E : ((z + 2 ^ 63) mod 2 ^ 64 = r + 2 ^ 63)%Z)
      by (symmetry; apply (Z.mod_unique _ _ q); lia).
    rewrite E. lia.
  - assert (E : ((z + 2 ^ 63) mod 2 ^ 64 = r - 2 ^ 63)%Z)
      by (symmetry; apply (Z.mod_unique _ _ (q + 1)); lia).
    rewrite E. lia.
Qed.

Lemma length_present (vs : list float) :
  List.length (filter (fun v => negb (isnan v)) vs) =
  (List.length vs - List.length (filter isnan vs))%nat /\
  (List.length (filter isnan vs) <= List.length vs)%nat.
Proof.
  induction vs as [|v vs [IH1 IH2]]; [split; reflexivity|].
  cbn [filter]. destruct (isnan v); cbn [negb List.length]; lia.
Qed.

(** The sum and the mean the code prints are the column's. *)
Lemma series_sum_column (name : pystr) (d : numeric) :
  format_scalar (series_sum d) =
  format_2f (column_sum {| label := name; data := NumericValues d |}).
Proof.
  destruct d as [vs|vs]; unfold column_sum; simpl.
  - now rewrite fold_add, wrap64_int64_of.
  - reflexivity.
Qed.

Lemma series_mean_column (name : pystr) (d : numeric) :
  format_scalar (series_mean d) =
  format_2f (column_mean {| label := name; data := NumericValues d |}).
Proof.
  destruct d as [vs|vs]; unfold column_mean, series_mean; simpl.
  - now destruct vs.
  - destruct (length_present vs) as [E Hle]. rewrite E. unfold fill_nan.
    destruct (Nat.ltb_spec 0 (List.length vs - List.length (filter isnan vs)));
      destruct (Nat.ltb_spec (List.length (filter isnan vs)) (List.length vs));
      try reflexivity; lia.
Qed.

(** The lines and the insights of the loop, column by column. *)
Lemma lines_of_columns (df : DataFrame) :
  flat_map (fun col => [total_line col; average_line col]) (numeric_cols df) =
  flat_map (fun c => [total_line_of c; average_line_of c]) (numeric_columns df) /\
  flat_map (fun col => if names_money col
                       then [total_insight col; average_insight col]
                       else []) (numeric_cols df) =
  flat_map (fun c => if money_label c
                     then [total_insight_of c; average_insight_of c]
                     else []) (numeric_columns df).
Proof.
  unfold numeric_cols, numeric_columns.
  set (f := fun col => [total_line col; average_line col]).
  set (g := fun c => [total_line_of c; average_line_of c]).
  set (f' := fun col => if names_money col
                        then [total_insight col; average_insight col] else []).
  set (g' := fun c => if money_label c
                      then [total_insight_of c; average_insight_of c] else []).
  induction (columns df) as [|[name dt] cs [IH1 IH2]]; [split; reflexivity|].
  cbn [flat_map filter]. unfold is_numeric at 1 3. cbn [data label].
  destruct dt as [d| |]; cbn [app flat_map]; try (split; assumption).
  rewrite IH1, IH2.
  assert (E : f (name, d) = g {| label := name; data := NumericValues d |} /\
              f' (name, d) = g' {| label := name; data := NumericValues d |}).
  { unfold f, g, f', g', total_line, average_line, total_insight,
      average_insight, names_money, total_line_of, average_line_of,
      total_insight_of, average_insight_of, money_label.
    cbn [fst snd label].
    now rewrite (series_sum_column name d), (series_mean_column name d). }
  destruct E as [-> ->]. split; reflexivity.
Qed.

Lemma length_money_insights (cols : list column) :
  List.length (flat_map (fun c => if money_label c
                                  then [total_insight_of c; average_insight_of c]
                                  else []) cols) =
  (2 * List.length (filter money_label cols))%nat.
Proof.
  induction cols as [|col cols IH]; simpl; [reflexivity|].
  destruct (money_label col); simpl; lia.
Qed.

(** A label mentions money when it shows [amount] or [sales] in any letter
    case, and only then. *)
Lemma money_label_ci (c : column) :
  money_label c = true <->
  contains_ci "amount" (label c) \/ contains_ci "sales" (label c).
Proof.
  unfold money_label. rewrite orb_true_iff. split.
  - intros [H|H]; [left|right]; (apply contains_lower_ci; [|exact H]);
      repeat constructor; discriminate.
  - intros [H|H]; [left|right];
      (apply contains_ci_lower; [plain_keyword | exact H]).
Qed.

(** The analyzer returns a report or reports an error; the bare [None]
    is not among its results. *)
Lemma analyze_data_not_none (df : DataFrame) (q : pystr) :
  analyze_data df q <> ReturnsNone.
Proof.
  rewrite analyze_data_cases.
  destruct (find _ _); discriminate.
Qed.

End Analyzer.

Section AnalyzerClaims.

Context {F : Float64} {Pd : Pandas}.

(** C4, as the code has it. On a table where no numeric column carries a
    label that another column carries too, the analyzer returns a report.
    Its summary is the newline-join of a header line that states the record
    count and, for each numeric column in column order, a total line and an
    average line: the sum and the mean of the column under the format
    [,.2f], which prints thousands separators and two decimal places ([nan]
    and [inf] for what is not a finite number). Its insights are a total
    and an average string for each numeric column whose label shows
    [amount] or [sales] in any letter case, two per such column. *)
Theorem analyze_data_summary_and_insights {T : FloatText}
    (df : DataFrame) (q : pystr) :
  numeric_labels_single df = true ->
  exists r count,
    analyze_data df q = Returns r /\
    Forall (fun d => 48 <= d <= 57) count /\
    int_of count = N.of_nat (nrows df) /\
    analysis r =
      join [10] (("Analysis of " +++ count +++ " records:") ::
                 flat_map (fun c => [total_line_of c; average_line_of c])
                          (numeric_columns df)) /\
    insights r =
      flat_map (fun c => if money_label c
                         then [total_insight_of c; average_insight_of c]
                         else []) (numeric_columns df) /\
    List.length (insights r) =
      (2 * List.length (filter money_label (numeric_columns df)))%nat /\
    (forall c, money_label c = true <->
               contains_ci "amount" (label c) \/ contains_ci "sales" (label c)) /\
    (forall c, In c (numeric_columns df) ->
       separated_two_decimals (classify (column_sum c)) (format_2f (column_sum c)) /\
       separated_two_decimals (classify (column_mean c)) (format_2f (column_mean c))).
Proof.
  intros Hsingle.
  destruct (lines_of_columns df) as [Hlines Hins].
  destruct (str_of_N_spec (N.of_nat (nrows df))) as [Hcount Hdigits].
  eexists. exists (str_of_N (N.of_nat (nrows df))).
  rewrite analyze_data_cases, (single_labels_find df Hsingle).
  split; [reflexivity|]. cbn [analysis insights].
  split; [exact Hdigits|]. split; [exact Hcount|].
  unfold summary_lines, money_insights, header_line. rewrite Hlines, Hins.
  split; [reflexivity|]. split; [reflexivity|].
  split; [apply length_money_insights|].
  split; [apply money_label_ci|].
  intros c _. split; apply format_2f_separated.
Qed.

Lemma wrap64_0 : wrap64 0 = 0%Z.
Proof. reflexivity. Qed.

(** [wrap64] lands in the range of [int64], on the residue of its argument,
    and leaves a value of the range as it is. *)
Lemma wrap64_range (z : Z) : (- 2 ^ 63 <= wrap64 z < 2 ^ 63)%Z.
Proof.
  unfold wrap64.
  pose proof (Z.mod_pos_bound (z + 2 ^ 63) (2 ^ 64) ltac:(lia)). lia.
Qed.

Lemma wrap64_mod (z : Z) : (wrap64 z mod 2 ^ 64 = z mod 2 ^ 64)%Z.
Proof.
  unfold wrap64.
  rewrite Zminus_mod, Z.mod_mod, <- Zminus_mod by lia.
  f_equal. lia.
Qed.

Lemma wrap64_small (z : Z) : (- 2 ^ 63 <= z < 2 ^ 63)%Z -> wrap64 z = z.
Proof.
  intros H. unfold wrap64. rewrite Z.mod_small by lia. lia.
Qed.

(** C5, as the code has it. On a table of no rows with one numeric column
    named [amount], the analyzer returns a report: it says 0 records, a
    total of 0.00 and an average of nan, in the summary and in the
    insights, and suggests no chart. *)
Theorem empty_amount_report (d : numeric) (q : pystr) :
  numeric_size d = 0%nat ->
  analyze_data (empty_amount d) q =
  Returns
    {| analysis := join [10] (map of_string
         ["Analysis of 0 records:"; "- Total amount: 0.00"; "- Average amount: nan"]);
       insights := map of_string
         ["Total amount is 0.00"; "Average amount per record is nan"];
       visualizations := [] |}.
Proof.
  intros Hd. rewrite analyze_data_cases.
  unfold summary_lines, money_insights, header_line, total_line, average_line,
    total_insight, average_insight.
  destruct d as [[|v vs]|[|v vs]]; try discriminate Hd; simpl;
    rewrite ?wrap64_0, ?of_int_0, ?fsum_nil, ?format_2f_zero, ?format_2f_nan;
    reflexivity.
Qed.

(** The first column of a kind, in column order. *)
Lemma hd_categorical_cols (df : DataFrame) :
  hd_error (categorical_cols df) =
  option_map label (find is_categorical (columns df)).
Proof.
  unfold categorical_cols, is_categorical.
  induction (columns df) as [|c cs IH]; simpl; [reflexivity|].
  destruct (data c); simpl; auto.
Qed.

Lemma hd_numeric_cols (df : DataFrame) :
  hd_error (map fst (numeric_cols df)) =
  option_map label (find is_numeric (columns df)).
Proof.
  unfold numeric_cols, is_numeric.
  induction (columns df) as [|c cs IH]; simpl; [reflexivity|].
  destruct (data c); simpl; auto.
Qed.

Lemma suggest_hd (cats : list pystr) (nums : list (pystr * numeric)) :
  suggest cats nums =
  match hd_error cats, hd_error (map fst nums) with
  | Some x, Some y => [bar_spec x y; pie_spec x y]
  | _, _ => []
  end.
Proof. destruct cats, nums as [|[] ?]; reflexivity. Qed.

(** The suggestions of a report, by the first column of each kind. *)
Lemma suggestions_of_report (df : DataFrame) (q : pystr) (r : report) :
  analyze_data df q = Returns r ->
  visualizations r =
  match find is_categorical (columns df), find is_numeric (columns df) with
  | Some c, Some n => [bar_spec (label c) (label n); pie_spec (label c) (label n)]
  | _, _ => []
  end.
Proof.
  intros E. rewrite (analyze_data_returns df q r E). cbn [visualizations].
  rewrite suggest_hd, hd_categorical_cols, hd_numeric_cols.
  destruct (find is_categorical (columns df)), (find is_numeric (columns df));
    reflexivity.
Qed.

(** C6, as the code has it. On a table where no numeric column carries a
    label that another column carries too, the analyzer returns a report;
    with a categorical and a numeric column in the table, its suggestions
    are a bar spec and then a pie spec, both with [x] the first categorical
    column and [y] the first numeric column in column order, titled from
    the two names; with no categorical column, or no numeric one, there is
    no suggestion. *)
Theorem suggestions_bar_then_pie (df : DataFrame) (q : pystr) :
  numeric_labels_single df = true ->
  exists r,
    analyze_data df q = Returns r /\
    (forall cat num,
        find is_categorical (columns df) = Some cat ->
        find is_numeric (columns df) = Some num ->
        visualizations r =
        [bar_spec (label cat) (label num); pie_spec (label cat) (label num)]) /\
    (find is_categorical (columns df) = None \/
     find is_numeric (columns df) = None ->
     visualizations r = []).
Proof.
  intros Hsingle.
  pose proof (analyze_data_cases df q) as E.
  rewrite (single_labels_find df Hsingle) in E.
  eexists. split; [exact E|].
  rewrite (suggestions_of_report df q _ E). split.
  - intros cat num -> ->. reflexivity.
  - intros [-> | ->]; [reflexivity|].
    now destruct (find is_categorical (columns df)).
Qed.

(** C8. Every insight of a report restates a line of its summary: it is
    the total, or the average, of a numeric column, and the summary holds
    the total line, or the average line, of that column with the same
    printed value. *)
Theorem insights_restate_summary (df : DataFrame) (q : pystr) (r : report)
    (i : pystr) :
  analyze_data df q = Returns r ->
  In i (insights r) ->
  exists name d,
    In (name, d) (numeric_cols df) /\
    let total := format_scalar (series_sum d) in
    let avg := format_scalar (series_mean d) in
    (i = "Total " +++ name +++ " is " +++ total /\
     contains ("- Total " +++ name +++ ": " +++ total) (analysis r) = true) \/
    (i = "Average " +++ name +++ " per record is " +++ avg /\
     contains ("- Average " +++ name +++ ": " +++ avg) (analysis r) = true).
Proof.
  intros E. rewrite (analyze_data_returns df q r E). simpl.
  unfold money_insights. intros Hin.
  apply in_flat_map in Hin as ([name d] & Hcol & Hi).
  exists name, d. split; [exact Hcol|]. cbv zeta.
  assert (Hlines : forall line,
             In line [total_line (name, d); average_line (name, d)] ->
             contains line (join [10] (summary_lines df)) = true).
  { intros line Hline. apply contains_join. unfold summary_lines. right.
    apply in_flat_map. now exists (name, d). }
  destruct (names_money (name, d)); [|contradiction].
  destruct Hi as [<-|[<-|[]]]; [left|right]; (split; [reflexivity|]);
    apply Hlines; simpl; auto.
Qed.

(** The loop reads the table through [df[col]] alone. *)
Lemma analyze_columns_ext (df1 df2 : DataFrame) (cols : list (pystr * numeric))
    (acc : list pystr * list pystr) :
  (forall col, In col (map fst cols) -> getitem df1 col = getitem df2 col) ->
  analyze_columns df1 cols acc = analyze_columns df2 cols acc.
Proof.
  revert acc. induction cols as [|[col series] cols IH]; intros acc H.
  - reflexivity.
  - cbn [analyze_columns]. rewrite (H col) by (now left).
    destruct (getitem df2 col) as [|c [|c' frame]]; try reflexivity.
    apply IH. intros col' Hin. apply H. now right.
Qed.

(** C10, as the code has it. A column of any dtype other than [int64],
    [float64] and [object] whose label is not that of a numeric column is
    not seen: the analysis of a table is the analysis of the same table
    without that column, so the column gives no summary line, no insight
    and no axis of a suggested chart. *)
Theorem other_dtype_column_is_invisible
    (n : nat) (pre post : list column) (name : pystr)
    (dtype : string) (vs : list Z) (q : pystr) :
  forallb (fun c => negb (is_numeric c && eqb (label c) name)) (pre ++ post) = true ->
  analyze_data
    {| nrows := n;
       columns := pre ++ {| label := name; data := OtherValues dtype vs |} :: post |} q =
  analyze_data {| nrows := n; columns := pre ++ post |} q.
Proof.
  intros Hname. rewrite forallb_forall in Hname.
  set (hidden := {| label := name; data := OtherValues dtype vs |}).
  set (df1 := {| nrows := n; columns := pre ++ hidden :: post |}).
  set (df2 := {| nrows := n; columns := pre ++ post |}).
  assert (Hnum : numeric_cols df1 = numeric_cols df2).
  { unfold numeric_cols, df1, df2. cbn [columns].
    rewrite !flat_map_app. reflexivity. }
  assert (Hcat : categorical_cols df1 = categorical_cols df2).
  { unfold categorical_cols, df1, df2. cbn [columns].
    rewrite !flat_map_app. reflexivity. }
  unfold analyze_data. cbv zeta. rewrite Hnum, Hcat.
  rewrite (analyze_columns_ext df1 df2); [reflexivity|].
  intros col Hin. rewrite numeric_cols_labels in Hin.
  apply in_map_iff in Hin as (c & <- & Hc).
  apply filter_In in Hc as [Hc Hn]. specialize (Hname c Hc).
  rewrite Hn in Hname. cbn [andb] in Hname.
  unfold getitem, df1, df2. cbn [columns].
  rewrite !filter_app. cbn [filter label hidden].
  destruct (eqb name (label c)) eqn:E; [|reflexivity].
  apply eqb_eq in E. subst name.
  assert (E' : eqb (label c) (label c) = true) by now apply eqb_eq.
  rewrite E' in Hname. discriminate.
Qed.

End AnalyzerClaims.

Lemma analyze_data_summary_and_insights_witness :
  exists r count,
    analyze_data (Pd := Frames.series_format) top_products_table
      "What are our top products?" = Returns r /\
    Forall (fun d => 48 <= d <= 57) count /\
    int_of count = N.of_nat (nrows top_products_table) /\
    analysis r =
      join [10] (("Analysis of " +++ count +++ " records:") ::
                 flat_map (fun c => [total_line_of c; average_line_of c])
                          (numeric_columns top_products_table)) /\
    insights r =
      flat_map (fun c => if money_label c
                         then [total_insight_of c; average_insight_of c]
                         else []) (numeric_columns top_products_table) /\
    List.length (insights r) =
      (2 * List.length (filter money_label (numeric_columns top_products_table)))%nat /\
    (forall c : column (F := Exact.exact), money_label c = true <->
               contains_ci "amount" (label c) \/ contains_ci "sales" (label c)) /\
    (forall c, In c (numeric_columns top_products_table) ->
       separated_two_decimals (ExactText.xclassify (column_sum c))
         (format_2f (column_sum c)) /\
       separated_two_decimals (ExactText.xclassify (column_mean c))
         (format_2f (column_mean c))).
Proof.
  apply (@analyze_data_summary_and_insights Exact.exact Frames.series_format
           ExactText.exact_text top_products_table "What are our top products?").
  reflexivity.
Defined.

(** C4, as the claim has it, fails on a table that carries the label
    [amount] on two numeric columns: the table has numeric columns, and no
    summary and no insight comes back, the analyzer returns [None]. *)
Lemma repeated_amount_is_not_summarised :
  map label (numeric_columns repeated_amount_table) =
    [of_string "amount"; of_string "amount"] /\
  numeric_labels_single repeated_amount_table = false /\
  returned (analyze_data (Pd := Frames.series_format) repeated_amount_table
              "total amount by region") = None.
Proof. vm_compute. repeat split. Qed.

Lemma empty_amount_report_witness :
  analyze_data (F := Exact.exact) (Pd := Frames.series_format)
    (empty_amount (Float64Values [])) "total amount?" =
  Returns
    {| analysis := join [10] (map of_string
         ["Analysis of 0 records:"; "- Total amount: 0.00"; "- Average amount: nan"]);
       insights := map of_string
         ["Total amount is 0.00"; "Average amount per record is nan"];
       visualizations := [] |}.
Proof.
  apply (@empty_amount_report Exact.exact Frames.series_format
           (Float64Values []) "total amount?").
  reflexivity.
Defined.

(** C5, as the claim has it, fails on the table of no rows with a float
    column [amount]: the average line reads nan; the average printed is not
    0, and the summary carries no mark that says no data. *)
Lemma empty_amount_average_is_nan :
  exists r,
    analyze_data (F := Exact.exact) (Pd := Frames.series_format)
      (empty_amount (Float64Values [])) [] = Returns r /\
    contains "- Average amount: nan" (analysis r) = true /\
    contains "- Average amount: 0" (analysis r) = false /\
    contains "no data" (lower (analysis r)) = false.
Proof. eexists. split; [reflexivity|]. vm_compute. repeat split. Qed.

Lemma suggestions_bar_then_pie_witness :
  exists r,
    analyze_data (Pd := Frames.series_format) top_products_table
      "What are our top products?" = Returns r /\
    (forall cat num,
        find is_categorical (columns top_products_table) = Some cat ->
        find is_numeric (columns top_products_table) = Some num ->
        visualizations r =
        [bar_spec (label cat) (label num); pie_spec (label cat) (label num)]) /\
    (find is_categorical (columns top_products_table) = None \/
     find is_numeric (columns top_products_table) = None ->
     visualizations r = []).
Proof.
  apply (@suggestions_bar_then_pie Exact.exact Frames.series_format
           top_products_table "What are our top products?").
  reflexivity.
Defined.

(** C6, as the claim has it, fails on a table with a text column and two
    integer columns labelled [a]: the table has a categorical and a numeric
    column, and no suggestion comes back, the analyzer returns [None]. *)
Lemma repeated_integer_gets_no_suggestion :
  option_map label (find is_categorical (columns repeated_integer_table)) =
    Some (of_string "name") /\
  option_map label (find is_numeric (columns repeated_integer_table)) =
    Some (of_string "a") /\
  returned (analyze_data (Pd := Frames.series_format) repeated_integer_table
              "top a by name") = None.
Proof. vm_compute. repeat split. Qed.

Lemma insights_restate_summary_witness :
  exists name d,
    In (name, d) (numeric_cols top_products_table) /\
    let r := Canned.report_of
               (analyze_data (Pd := Frames.series_format) top_products_table []) in
    let total := format_scalar (series_sum d) in
    let avg := format_scalar (series_mean d) in
    (of_string "Total total_sales is 1,002.75" =
       "Total " +++ name +++ " is " +++ total /\
     contains ("- Total " +++ name +++ ": " +++ total) (analysis r) = true) \/
    (of_string "Total total_sales is 1,002.75" =
       "Average " +++ name +++ " per record is " +++ avg /\
     contains ("- Average " +++ name +++ ": " +++ avg) (analysis r) = true).
Proof.
  apply (@insights_restate_summary Exact.exact Frames.series_format
           top_products_table []
           (Canned.report_of
              (analyze_data (Pd := Frames.series_format) top_products_table []))
           "Total total_sales is 1,002.75").
  - reflexivity.
  - vm_compute. left. reflexivity.
Defined.

Lemma other_dtype_column_is_invisible_witness :
  analyze_data (Pd := Frames.series_format)
    {| nrows := 2;
       columns := columns top_products_table ++
                  {| label := "total_sales_day";
                     data := OtherValues "datetime64[ns]"
                               [1672531200000000000; 1672617600000000000]%Z |} :: [] |}
    "What are our top products?" =
  analyze_data (Pd := Frames.series_format)
    {| nrows := 2; columns := columns top_products_table ++ [] |}
    "What are our top products?".
Proof.
  apply (@other_dtype_column_is_invisible Exact.exact Frames.series_format
           2 (columns top_products_table) [] "total_sales_day" "datetime64[ns]").
  reflexivity.
Defined.

(** C10, as the claim has it, fails on a column of dates that carries the
    label of an integer column: with the column of dates in the table the
    analyzer returns [None], without it the analyzer returns a report. *)
Lemma dates_labelled_as_integers_are_seen :
  is_numeric dates_a = false /\ is_categorical dates_a = false /\
  returned (analyze_data (Pd := Frames.series_format)
              {| nrows := 2; columns := [integer_a; dates_a] |} []) = None /\
  exists r,
    analyze_data (Pd := Frames.series_format)
      {| nrows := 2; columns := [integer_a] |} [] = Returns r /\
    analysis r = join [10] (map of_string
      ["Analysis of 2 records:"; "- Total a: 7.00"; "- Average a: 3.50"]).
Proof.
  split; [reflexivity|]. split; [reflexivity|]. split; [reflexivity|].
  eexists. split; reflexivity.
Qed.

(** The scenario of the best-selling products, end to end. *)
Example top_products_scenario :
  generate_sql_query "What are our top products?" = Some top_products_sql /\
  analyze_data (Pd := Frames.series_format) top_products_table [] =
  Returns
    {| analysis := join [10] (map of_string
         ["Analysis of 2 records:";
          "- Total total_quantity: 7.00"; "- Average total_quantity: 3.50";
          "- Total total_sales: 1,002.75"; "- Average total_sales: 501.38"]);
       insights := map of_string
         ["Total total_sales is 1,002.75";
          "Average total_sales per record is 501.38"];
       visualizations :=
         [bar_spec "product_name" "total_quantity";
          pie_spec "product_name" "total_quantity"] |}.
Proof. vm_compute. repeat split. Qed.

Example sales_by_region_scenario :
  generate_sql_query "Show me sales by region" = Some sales_by_region_sql.
Proof. reflexivity. Qed.

(** * The chart renderer *)

Section RendererFacts.

Context {F : Float64} {P : Plotly}.

(** C7, as the code has it. The chart type is compared in lower case: when
    lowered it is [bar], [line], [scatter] or [pie], the constructor of that
    name is called, [px.pie] with [x] as its [names] and [y] as its
    [values], and its figure is returned (its exception, if it raises, is
    reported and [None] returned); when lowered it is none of the four, the
    function returns [None] and reports nothing. *)
Theorem create_visualization_dispatch (df : DataFrame) (cfg : viz_config) :
  let chart_type := lower (viz_type cfg) in
  (chart_type = "bar" ->
   create_visualization df cfg =
   drawn (px_bar df (viz_x cfg) (viz_y cfg) (viz_title cfg))) /\
  (chart_type = "line" ->
   create_visualization df cfg =
   drawn (px_line df (viz_x cfg) (viz_y cfg) (viz_title cfg))) /\
  (chart_type = "scatter" ->
   create_visualization df cfg =
   drawn (px_scatter df (viz_x cfg) (viz_y cfg) (viz_title cfg))) /\
  (chart_type = "pie" ->
   create_visualization df cfg =
   drawn (px_pie df (viz_x cfg) (viz_y cfg) (viz_title cfg))) /\
  (~ In chart_type known_types ->
   create_visualization df cfg = ReturnsNone).
Proof.
  cbv zeta. unfold create_visualization. cbv zeta.
  repeat split; intros H.
  - now rewrite H.
  - now rewrite H.
  - now rewrite H.
  - now rewrite H.
  - repeat match goal with
           | |- context [eqb ?a ?b] =>
               let E := fresh "E" in
               destruct (eqb a b) eqn:E;
               [apply eqb_eq in E; exfalso; apply H; rewrite E;
                unfold known_types; simpl; tauto |]
           end.
    reflexivity.
Qed.

End RendererFacts.

Lemma create_visualization_dispatch_witness :
  create_visualization (P := Recorded.recorded) top_products_table
    {| viz_type := "donut"; viz_x := "product_name"; viz_y := "total_sales";
       viz_title := "Share of sales" |} = ReturnsNone /\
  create_visualization (P := Recorded.recorded) top_products_table
    {| viz_type := "pie"; viz_x := "product_name"; viz_y := "total_sales";
       viz_title := "Share of sales" |} =
  Returns (Recorded.Pie "product_name" "total_sales" "Share of sales").
Proof.
  split.
  - apply (create_visualization_dispatch (P := Recorded.recorded)).
    vm_compute. intuition discriminate.
  - apply (create_visualization_dispatch (P := Recorded.recorded)).
    reflexivity.
Defined.

(** C7, as the claim has it, fails on a chart type in capitals: [BAR] is
    none of the four names, and the renderer returns a bar chart for it. *)
Lemma capital_bar_is_drawn :
  ~ In (viz_type capital_bar) known_types /\
  create_visualization (P := Recorded.recorded) top_products_table capital_bar =
  Returns (Recorded.Bar "product_name" "total_quantity"
             "total_quantity by product_name") /\
  returned (create_visualization (P := Recorded.recorded)
              top_products_table capital_bar) <> None.
Proof.
  repeat split.
  - vm_compute. intuition discriminate.
  - vm_compute. discriminate.
Qed.

(** * More on the query selector *)

Lemma lower_cp_lower_cp (c : N) : lower (lower_cp c) = lower_cp c.
Proof.
  unfold lower_cp.
  destruct (N.leb_spec 65 c); destruct (N.leb_spec c 90); simpl;
    repeat match goal with
           | |- context [N.eqb ?a ?b] => destruct (N.eqb_spec a b); simpl
           end; try reflexivity; try lia;
    unfold lower, lower_cp; simpl;
    repeat match goal with
           | |- context [N.leb ?a ?b] => destruct (N.leb_spec a b); simpl
           | |- context [N.eqb ?a ?b] => destruct (N.eqb_spec a b); simpl
           end; try reflexivity; lia.
Qed.

(** Lowering twice is lowering once. *)
Lemma lower_lower (s : pystr) : lower (lower s) = lower s.
Proof.
  induction s as [|c s IH]; [reflexivity|].
  change (lower (c :: s)) with (lower_cp c ++ lower s).
  now rewrite lower_app, lower_cp_lower_cp, IH.
Qed.

(** X1. The selector reads the letter case of no part of the question:
    the lowered question gets the same answer. *)
Theorem generate_sql_query_ignores_case (q : pystr) :
  generate_sql_query (lower q) = generate_sql_query q.
Proof.
  unfold generate_sql_query. cbv zeta. now rewrite lower_lower.
Qed.

(** A string that holds [needle] holds every run of [needle]. *)
Lemma contains_run (pre run post hay : pystr) :
  contains (pre ++ run ++ post) hay = true -> contains run hay = true.
Proof.
  intros H. destruct (contains_split _ _ H) as (a & b & ->).
  replace (a ++ (pre ++ run ++ post) ++ b)
    with ((a ++ pre) ++ run ++ (post ++ b))
    by (now rewrite <- !app_assoc).
  apply contains_app.
Qed.

(** X2. The words [all products] hold the word [product]: with [top] or [best]
    in the question, a request for all products gets the best-selling
    products query, never the listing. *)
Theorem top_hides_all_products (q : pystr) :
  contains_ci "top" q \/ contains_ci "best" q ->
  contains_ci "all products" q ->
  generate_sql_query q = Some top_products_sql /\
  generate_sql_query q <> Some all_products_sql.
Proof.
  intros Hkey Hall.
  assert (E : generate_sql_query q = Some top_products_sql).
  { unfold generate_sql_query. cbv zeta.
    assert (Hk : contains "top" (lower q) || contains "best" (lower q) = true).
    { apply orb_true_iff.
      destruct Hkey as [H|H]; [left|right];
        (apply contains_ci_lower; [plain_keyword | exact H]). }
    rewrite Hk.
    assert (Hp : contains "product" (lower q) = true).
    { apply (contains_run "all " "product" "s").
      apply (contains_ci_lower "all products"); [plain_keyword | exact Hall]. }
    now rewrite Hp, orb_true_r. }
  split; [exact E|]. rewrite E. intros H.
  vm_compute in H. discriminate.
Qed.

Lemma top_hides_all_products_witness :
  generate_sql_query "Best of ALL Products" = Some top_products_sql /\
  generate_sql_query "Best of ALL Products" <> Some all_products_sql.
Proof.
  apply (top_hides_all_products "Best of ALL Products").
  - right. exists ([] : pystr), ("Best" : pystr), (" of ALL Products" : pystr).
    split; [reflexivity | letter_by_letter].
  - exists ("Best of " : pystr), ("ALL Products" : pystr), ([] : pystr).
    split; [reflexivity | letter_by_letter].
Defined.

(** * The page *)

Lemma sql_templates_not_empty (sql : pystr) :
  In sql sql_templates -> exists c rest, sql = c :: rest.
Proof.
  intros H. simpl in H.
  repeat (destruct H as [<-|H]; [vm_compute; eauto|]).
  contradiction.
Qed.

Section PageFacts.

Context {F : Float64} {P : Plotly} {D : Database} {Pd : Pandas}.

(** The three ways [run_query] ends: with the analysis on the page and a new
    entry in the history; with the table and the error of the analyzer on
    the page and the history as it was; or with one error on the page and
    the history as it was. *)
Lemma run_query_cases (env : environ) (q sql : pystr) (h : list history_item) :
  (exists url e df,
      getenv env "DATABASE_URL" = Some url /\ url <> [] /\
      create_engine url = Ok e /\ read_sql_query sql e = Ok df /\
      ((exists r,
           analyze_data df q = Returns r /\
           run_query env q sql h =
           (st_expander "View Raw Data" [st_dataframe df] :: show_analysis df r,
            h ++ [ {| item_question := q; item_sql := sql;
                      item_analysis := r |} ])) \/
       (exists msg,
           analyze_data df q = Reports msg /\
           run_query env q sql h =
           ([st_expander "View Raw Data" [st_dataframe df]; st_error msg], h)))) \/
  ((forall url e df,
       getenv env "DATABASE_URL" = Some url -> url <> [] ->
       create_engine url = Ok e -> read_sql_query sql e <> Ok df) /\
   exists msg, run_query env q sql h = ([st_error msg], h)).
Proof.
  unfold run_query, get_db_connection. cbv zeta.
  destruct (getenv env "DATABASE_URL") as [[|c rest]|] eqn:E.
  - right. split; [intros url e df Hu Hne; congruence | eauto].
  - destruct (create_engine (c :: rest)) as [e|msg] eqn:Ec.
    + destruct (read_sql_query sql e) as [df|msg] eqn:Er.
      * left. exists (c :: rest), e, df.
        split; [reflexivity|]. split; [discriminate|].
        split; [exact Ec|]. split; [exact Er|].
        pose proof (analyze_data_not_none df q) as Hnone.
        destruct (analyze_data df q) as [r| |msg]; [left|congruence|right].
        -- exists r. split; reflexivity.
        -- exists msg. split; reflexivity.
      * right. split; [|simpl; eauto].
        intros url e' df Hu _ He'. injection Hu as <-.
        rewrite Ec in He'. injection He' as <-. rewrite Er. discriminate.
    + right. split; [|simpl; eauto].
      intros url e' df Hu _ He'. injection Hu as <-. congruence.
  - right. split; [intros url e df Hu; discriminate | eauto].
Qed.

(** The history after the button: as it was, or with one entry more, for
    the question answered with a table that the analyzer reports on. *)
Lemma analyze_button_history (env : environ) (q : pystr) (h : list history_item) :
  (exists sql df r,
      answered env q sql df /\ analyze_data df q = Returns r /\
      snd (analyze_button env q h) =
      h ++ [ {| item_question := q; item_sql := sql; item_analysis := r |} ]) \/
  ((forall sql df r, answered env q sql df -> analyze_data df q <> Returns r) /\
   snd (analyze_button env q h) = h).
Proof.
  destruct q as [|c q].
  - right. split; [|reflexivity]. intros sql df r [H _]. now contradiction H.
  - unfold analyze_button.
    destruct (generate_sql_query (c :: q)) as [sql|] eqn:G.
    + destruct (sql_templates_not_empty sql
                  (generate_sql_query_in_templates _ _ G)) as (s & rest & ->).
      destruct (run_query_cases env (c :: q) (s :: rest) h)
        as [(url & e & df & Hu & Hne & He & Hr &
             [(r & Ea & ->)|(msg & Ea & ->)])|[Hno (msg & ->)]].
      * left. exists (s :: rest), df, r. split; [|split; [exact Ea|reflexivity]].
        split; [discriminate|]. split; [exact G|]. now exists url, e.
      * right. split; [|reflexivity].
        intros sql df' r (_ & G' & url' & e' & Hu' & Hne' & He' & Hr').
        rewrite G in G'. injection G' as <-.
        rewrite Hu in Hu'. injection Hu' as <-.
        rewrite He in He'. injection He' as <-.
        rewrite Hr in Hr'. injection Hr' as <-.
        rewrite Ea. discriminate.
      * right. split; [|reflexivity].
        intros sql df r (_ & G' & url & e & Hu & Hne & He & Hr).
        rewrite G in G'. injection G' as <-.
        exfalso. exact (Hno url e df Hu Hne He Hr).
    + right. split; [|reflexivity].
      intros sql df r (_ & G' & _). congruence.
Qed.

(** X3. A question never grows the history unless it was answered. The
    script ends in one of three ways. Without the OpenAI key it shows the
    head of the page and one error, and leaves the session state alone,
    whatever was asked. With the key, the button pressed, and the question
    answered with a table on which the analyzer returns a report, the
    history gets one entry at its end: the question, the query text and
    that report. In every other case the history is as it was. *)
Theorem script_appends_iff_answered (env : environ)
    (session_state : option (list history_item)) (q : pystr) (pressed : bool) :
  (is_set (getenv env "OPENAI_API_KEY") = false /\
   script env session_state q pressed =
   (page_head ++ [st_error "Please set your OpenAI API key in the .env file!"],
    session_state)) \/
  (is_set (getenv env "OPENAI_API_KEY") = true /\
   ((exists sql df r,
        pressed = true /\ answered env q sql df /\
        analyze_data df q = Returns r /\
        snd (script env session_state q pressed) =
        Some (history_of session_state ++
              [ {| item_question := q; item_sql := sql;
                   item_analysis := r |} ])) \/
    (~ (pressed = true /\
        exists sql df r, answered env q sql df /\ analyze_data df q = Returns r) /\
     snd (script env session_state q pressed) = Some (history_of session_state)))).
Proof.
  unfold script. cbv zeta.
  destruct (is_set (getenv env "OPENAI_API_KEY")); simpl negb; cbv iota;
    [right | left; split; reflexivity].
  split; [reflexivity|].
  fold (history_of session_state).
  destruct pressed.
  - destruct (analyze_button_history env q (history_of session_state))
      as [(sql & df & r & Ha & Er & E)|[Hno E]];
      destruct (analyze_button env q (history_of session_state)) as [shown h'];
      simpl in E; subst h'.
    + left. exists sql, df, r. auto.
    + right. split; [|reflexivity].
      intros (_ & sql & df & r & Ha & Er). exact (Hno _ _ _ Ha Er).
  - right. split; [|reflexivity]. intros [H _]. discriminate.
Qed.

(** X4. A failure after the query text was chosen is always told. When the
    selector gives a query text for a question that is then not answered
    (no connection string, no engine, or a query that fails), the page shows
    the query text and one error under the spinner, and the history is as it
    was. *)
Theorem unanswered_question_shows_an_error (env : environ) (q sql : pystr)
    (h : list history_item) :
  q <> [] ->
  generate_sql_query q = Some sql ->
  (forall df, ~ answered env q sql df) ->
  exists msg,
    analyze_button env q h =
    ([st_spinner "Analyzing your question..."
        [st_code sql "sql"; st_error msg]], h).
Proof.
  intros Hq G Hno. destruct q as [|c q]; [congruence|].
  unfold analyze_button. rewrite G.
  destruct (sql_templates_not_empty sql
              (generate_sql_query_in_templates _ _ G)) as (s & rest & ->).
  destruct (run_query_cases env (c :: q) (s :: rest) h)
    as [(url & e & df & Hu & Hne & He & Hr & _)|[_ (msg & ->)]].
  - exfalso. apply (Hno df). split; [discriminate|]. split; [exact G|].
    now exists url, e.
  - now exists msg.
Qed.

(** X5. The question that falls through shows nothing. With the key set and
    the button pressed, a question that mentions [top] or [best] and no
    [product] puts an empty spinner on the page: no query text, no warning,
    no error; the history is as it was. *)
Theorem fallthrough_question_shows_nothing (env : environ)
    (session_state : option (list history_item)) (q : pystr) :
  is_set (getenv env "OPENAI_API_KEY") = true ->
  contains "top" (lower q) || contains "best" (lower q) = true ->
  contains "products" (lower q) || contains "product" (lower q) = false ->
  script env session_state q true =
  (page_head ++ page_widgets ++
   [st_spinner "Analyzing your question..." []] ++
   show_history (history_of session_state),
   Some (history_of session_state)).
Proof.
  intros Hkey Htop Hprod.
  assert (G : generate_sql_query q = None).
  { apply generate_sql_query_none_iff. now rewrite Htop, Hprod. }
  unfold script. cbv zeta. rewrite Hkey. simpl negb. cbv iota.
  fold (history_of session_state).
  destruct q as [|c q]; [discriminate Htop|].
  unfold analyze_button. rewrite G. cbv zeta.
  unfold page_head, page_widgets. now rewrite <- !app_assoc.
Qed.

(** The loop over the suggestions, cut in two. *)
Lemma show_charts_app (df : DataFrame) (idx : nat) (a b : list viz_config) :
  show_charts df idx (a ++ b) =
  show_charts df idx a ++ show_charts df (idx + List.length a) b.
Proof.
  revert idx. induction a as [|v a IH]; intros idx; simpl.
  - now rewrite Nat.add_0_r.
  - rewrite IH, <- app_assoc. do 3 f_equal. lia.
Qed.

(** X6. Each chart is drawn on its own. The suggestion at position [i] is
    drawn in the column [i mod 2] when its constructor gives a figure, and
    its error is shown when the constructor raises, whatever happens to the
    suggestions before and after it. *)
Theorem each_chart_is_drawn_on_its_own (df : DataFrame)
    (vizs : list viz_config) (i : nat) (v : viz_config) :
  nth_error vizs i = Some v ->
  match create_visualization df v with
  | Returns fig => In (st_plotly_chart (i mod 2) fig) (show_charts df 0 vizs)
  | ReturnsNone => True
  | Reports message => In (st_error message) (show_charts df 0 vizs)
  end.
Proof.
  intros Hi. apply nth_error_split in Hi as (a & b & -> & <-).
  rewrite show_charts_app. simpl.
  destruct (create_visualization df v); [| exact I |];
    apply in_or_app; right; left; reflexivity.
Qed.

(** X7. What [analyze_data] suggests, [create_visualization] knows. The
    charts of a report the analyzer returns are the bar chart in the left
    column and the pie chart in the right one, each replaced by its error
    if its constructor raises, for the first categorical and the first
    numeric column; and no chart when the table lacks either kind. No
    suggestion of a report is dropped silently. *)
Theorem suggestions_are_drawn_as_bar_and_pie (df : DataFrame) (q : pystr)
    (r : report) :
  analyze_data df q = Returns r ->
  show_charts df 0 (visualizations r) =
  match find is_categorical (columns df), find is_numeric (columns df) with
  | Some c, Some n =>
      chart_or_error 0
        (px_bar df (label c) (label n) (label n +++ " by " +++ label c)) ++
      chart_or_error 1
        (px_pie df (label c) (label n)
           ("Distribution of " +++ label n +++ " by " +++ label c))
  | _, _ => []
  end.
Proof.
  intros E. rewrite (suggestions_of_report df q r E).
  destruct (find is_categorical (columns df)) as [c|];
    destruct (find is_numeric (columns df)) as [n|]; simpl; try reflexivity.
  unfold create_visualization. simpl.
  destruct (px_bar _ _ _ _), (px_pie _ _ _ _); reflexivity.
Qed.

(** X8. A suggested chart binds columns of the table. In a report the
    analyzer returns, the [x] of a suggestion is the label of a categorical
    column of the table and its [y] the label of a numeric one. *)
Theorem suggestions_bind_columns_of_the_table (df : DataFrame) (q : pystr)
    (r : report) (v : viz_config) :
  analyze_data df q = Returns r ->
  In v (visualizations r) ->
  exists cx cy,
    In cx (columns df) /\ is_categorical cx = true /\ viz_x v = label cx /\
    In cy (columns df) /\ is_numeric cy = true /\ viz_y v = label cy.
Proof.
  intros E. rewrite (suggestions_of_report df q r E).
  destruct (find is_categorical (columns df)) as [c|] eqn:Ec;
    destruct (find is_numeric (columns df)) as [n|] eqn:En; simpl;
    try contradiction.
  apply find_some in Ec as [Hc1 Hc2]. apply find_some in En as [Hn1 Hn2].
  intros [<-|[<-|[]]]; exists c, n; simpl; auto 10.
Qed.

Lemma show_history_not_empty (h : list history_item) :
  h <> [] ->
  show_history h = st_write "### Previous Analyses" :: map show_item (rev h).
Proof. destruct h; [congruence | reflexivity]. Qed.

(** X9. The history is shown latest first, under short labels. The
    expander at position [i] below the heading is that of the entry [i]
    places before the last; its label is [Question: ], the first 100 code
    points of the question and three dots: 113 code points at most, with
    the whole question when it has no more than 100, and the three dots in
    either case. *)
Theorem history_is_shown_latest_first (h : list history_item) (i : nat) :
  (i < List.length h)%nat ->
  exists item,
    nth_error h (List.length h - 1 - i) = Some item /\
    nth_error (show_history h) (S i) = Some (show_item item) /\
    ui_label (show_item item) =
      "Question: " +++ firstn 100 (item_question item) +++ "..." /\
    (List.length (ui_label (show_item item)) <= 113)%nat /\
    ((List.length (item_question item) <= 100)%nat ->
     ui_label (show_item item) = "Question: " +++ item_question item +++ "...").
Proof.
  intros Hi.
  destruct (nth_error h (List.length h - 1 - i)) as [item|] eqn:E.
  2:{ apply nth_error_None in E. lia. }
  exists item. split; [reflexivity|]. split.
  - rewrite show_history_not_empty by (destruct h; simpl in Hi; [lia|discriminate]).
    simpl nth_error. rewrite nth_error_map.
    rewrite nth_error_rev.
    destruct (Nat.ltb_spec i (List.length h)) as [_|Hge]; [|lia].
    replace (List.length h - S i)%nat with (List.length h - 1 - i)%nat by lia.
    now rewrite E.
  - unfold show_item. cbn [ui_label]. split; [reflexivity|]. split.
    + unfold cat. rewrite !length_app, length_firstn.
      change (List.length (of_string "Question: ")) with 10%nat.
      change (List.length (of_string "...")) with 3%nat. lia.
    + intros Hlen. now rewrite firstn_all2.
Qed.

(** An entry added for an answered question is sound. *)
Lemma answered_item_sound (env : environ) (q sql : pystr) (df : DataFrame)
    (r : report) :
  answered env q sql df ->
  analyze_data df q = Returns r ->
  sound_item {| item_question := q; item_sql := sql; item_analysis := r |}.
Proof.
  intros (Hq & G & _) E. repeat split; simpl; try assumption.
  - now apply generate_sql_query_in_templates with q.
  - now exists df.
Qed.

(** One run adds at most one entry, a sound one, at the end. *)
Lemma script_adds (env : environ) (session_state : option (list history_item))
    (q : pystr) (pressed : bool) :
  exists added,
    history_of (snd (script env session_state q pressed)) =
    history_of session_state ++ added /\
    Forall sound_item added /\
    (List.length added <= if pressed then 1 else 0)%nat.
Proof.
  unfold script. cbv zeta.
  destruct (is_set (getenv env "OPENAI_API_KEY")); simpl negb; cbv iota.
  2:{ exists []. simpl. rewrite app_nil_r. repeat split; [constructor | destruct pressed; lia]. }
  fold (history_of session_state).
  destruct pressed.
  - destruct (analyze_button_history env q (history_of session_state))
      as [(sql & df & r & Ha & Er & E)|[Hno E]];
      destruct (analyze_button env q (history_of session_state)) as [shown h'];
      simpl in E; subst h'; simpl.
    + eexists. split; [reflexivity|]. split; [|simpl; lia].
      constructor; [|constructor]. now apply answered_item_sound with env df.
    + exists []. rewrite app_nil_r. repeat split; [constructor | simpl; lia].
  - exists []. simpl. rewrite app_nil_r. repeat split; [constructor | lia].
Qed.

End PageFacts.

(** X10. The history only grows, by sound entries. After any sequence of
    visits, whatever the database and the environment of each, the history
    is the one the session started with followed by new entries, at most
    one for each visit with the button pressed; every new entry holds a
    question that is not empty, the query text the selector gives for it,
    one of the five, and the report the analyzer returns on a table for
    it. *)
Theorem visits_only_add_sound_entries {F : Float64} {P : Plotly} {Pd : Pandas}
    (vs : list visit) (session_state : option (list history_item)) :
  exists added,
    history_of (visits vs session_state) = history_of session_state ++ added /\
    Forall sound_item added /\
    (List.length added <= List.length (filter visit_pressed vs))%nat.
Proof.
  revert session_state. induction vs as [|v vs IH]; intros st.
  - exists []. simpl. rewrite app_nil_r. repeat split; [constructor | lia].
  - unfold visits in *. simpl fold_left.
    destruct (script_adds (D := visit_database v) (visit_env v) st
                (visit_question v) (visit_pressed v)) as (a1 & E1 & S1 & L1).
    destruct (IH (snd (script (D := visit_database v) (visit_env v) st
                         (visit_question v) (visit_pressed v))))
      as (a2 & E2 & S2 & L2).
    exists (a1 ++ a2). rewrite E2, E1, app_assoc. split; [reflexivity|].
    split; [apply Forall_app; now split|].
    rewrite length_app. simpl filter.
    destruct (visit_pressed v); simpl; lia.
Qed.

Lemma unanswered_question_shows_an_error_witness :
  exists msg,
    analyze_button (P := Recorded.recorded) (D := Canned.canned)
      (Pd := Frames.series_format) Canned.env_no_database "Show me sales by region" [] =
    ([st_spinner "Analyzing your question..."
        [st_code sales_by_region_sql "sql"; st_error msg]], []).
Proof.
  apply (unanswered_question_shows_an_error (P := Recorded.recorded)
           (D := Canned.canned) (Pd := Frames.series_format)).
  - discriminate.
  - reflexivity.
  - intros df (_ & _ & url & e & Hu & _). vm_compute in Hu. discriminate.
Defined.

Lemma fallthrough_question_shows_nothing_witness :
  script (P := Recorded.recorded) (D := Canned.canned)
    (Pd := Frames.series_format) Canned.env (Some Canned.two_answers) "Show me the top customers" true =
  (page_head ++ page_widgets ++
   [st_spinner "Analyzing your question..." []] ++
   show_history Canned.two_answers,
   Some Canned.two_answers).
Proof.
  apply (fallthrough_question_shows_nothing (P := Recorded.recorded)
           (D := Canned.canned) (Pd := Frames.series_format) Canned.env (Some Canned.two_answers));
    reflexivity.
Defined.

Lemma each_chart_is_drawn_on_its_own_witness :
  In (st_plotly_chart (P := Recorded.recorded) 1
        (Recorded.Pie "product_name" "total_sales" "Share of sales"))
     (show_charts (P := Recorded.recorded) top_products_table 0
        Canned.donut_then_pie).
Proof.
  exact (each_chart_is_drawn_on_its_own (P := Recorded.recorded)
           top_products_table Canned.donut_then_pie 1 _ eq_refl).
Defined.

Lemma suggestions_are_drawn_as_bar_and_pie_witness :
  show_charts (P := Recorded.recorded) top_products_table 0
    [bar_spec "product_name" "total_quantity";
     pie_spec "product_name" "total_quantity"] =
  [st_plotly_chart (P := Recorded.recorded) 0
     (Recorded.Bar "product_name" "total_quantity"
        "total_quantity by product_name");
   st_plotly_chart (P := Recorded.recorded) 1
     (Recorded.Pie "product_name" "total_quantity"
        "Distribution of total_quantity by product_name")].
Proof.
  exact (suggestions_are_drawn_as_bar_and_pie (P := Recorded.recorded)
           (Pd := Frames.series_format) top_products_table
           "What are our top products?"
           (Canned.report_of
              (analyze_data (Pd := Frames.series_format) top_products_table
                 "What are our top products?"))
           eq_refl).
Defined.

Lemma suggestions_bind_columns_of_the_table_witness :
  exists cx cy,
    In cx (columns top_products_table) /\ is_categorical cx = true /\
    viz_x (bar_spec "product_name" "total_quantity") = label cx /\
    In cy (columns top_products_table) /\ is_numeric cy = true /\
    viz_y (bar_spec "product_name" "total_quantity") = label cy.
Proof.
  apply (suggestions_bind_columns_of_the_table (Pd := Frames.series_format)
           top_products_table []
           (Canned.report_of
              (analyze_data (Pd := Frames.series_format) top_products_table []))
           (bar_spec "product_name" "total_quantity")).
  - reflexivity.
  - left. reflexivity.
Defined.

Lemma history_is_shown_latest_first_witness :
  exists item,
    nth_error Canned.two_answers (List.length Canned.two_answers - 1 - 0) =
      Some item /\
    nth_error (show_history (F := Exact.exact) (P := Recorded.recorded) Canned.two_answers) 1 =
      Some (show_item item) /\
    ui_label (show_item (F := Exact.exact) (P := Recorded.recorded) item) =
      "Question: " +++ firstn 100 (item_question item) +++ "..." /\
    (List.length (ui_label (show_item (F := Exact.exact) (P := Recorded.recorded) item)) <= 113)%nat /\
    ((List.length (item_question item) <= 100)%nat ->
     ui_label (show_item (F := Exact.exact) (P := Recorded.recorded) item) =
     "Question: " +++ item_question item +++ "...").
Proof.
  apply (history_is_shown_latest_first (F := Exact.exact) (P := Recorded.recorded)
           Canned.two_answers 0).
  simpl. lia.
Defined.

(** A session of three visits: an answer, a question that falls through,
    and an answer that fails in the database. *)
Example three_visits :
  option_map (map item_question)
    (visits (P := Recorded.recorded) (Pd := Frames.series_format)
       [ {| visit_database := Canned.canned; visit_env := Canned.env;
            visit_question := "What are our top products?";
            visit_pressed := true |};
         {| visit_database := Canned.canned; visit_env := Canned.env;
            visit_question := "Show me the top customers";
            visit_pressed := true |};
         {| visit_database := Canned.canned; visit_env := Canned.env;
            visit_question := "customer spending";
            visit_pressed := true |} ] None) =
  Some [of_string "What are our top products?"].
Proof. vm_compute. reflexivity. Qed.

(** * The sample database *)

Section SampleDbFacts.

Import SampleDb.

Context {F : Float64} {M : FloatProduct} {R : Random}.

Lemma days_between_eq : days_between = 455%Z.
Proof. reflexivity. Qed.

Lemma keys_succ (a : Z) (n : nat) :
  keys a (S n) = keys a n ++ [(a + Z.of_nat n)%Z].
Proof. unfold keys. now rewrite seq_S, map_app. Qed.

Lemma fold_left_max_app (l : list Z) (i x : Z) :
  fold_left Z.max (l ++ [x]) i = Z.max (fold_left Z.max l i) x.
Proof. now rewrite fold_left_app. Qed.

(** The key after the keys in use is one more than the last given. *)
Lemma next_rowid_app (ids : list Z) :
  next_rowid (ids ++ [next_rowid ids]) = (next_rowid ids + 1)%Z.
Proof.
  destruct ids as [|i rest]; [reflexivity|].
  simpl app. unfold next_rowid. rewrite fold_left_max_app. lia.
Qed.

Lemma next_rowid_keys (n : nat) : next_rowid (keys 1 n) = (1 + Z.of_nat n)%Z.
Proof.
  induction n as [|n IH]; [reflexivity|].
  rewrite keys_succ, <- IH, next_rowid_app. lia.
Qed.

(** The keys of the rows a table holds, on a file the script filled. *)
Lemma keys_next (n : nat) : keys 1 n ++ [next_rowid (keys 1 n)] = keys 1 (S n).
Proof. now rewrite keys_succ, next_rowid_keys. Qed.

Lemma executemany_customers (db : database)
    (rows : list (pystr * pystr * pystr * pystr)) :
  let db' := executemany insert_customer db rows in
  products db' = products db /\ sales db' = sales db /\
  exists cs, customers db' = customers db ++ cs /\ map customer_row cs = rows.
Proof.
  revert db. induction rows as [|[[[name mail] reg] joined] rows IH]; intros db.
  - simpl. repeat split. exists []. now rewrite app_nil_r.
  - change (executemany insert_customer db ((name, mail, reg, joined) :: rows))
      with (executemany insert_customer (insert_customer db (name, mail, reg, joined)) rows).
    destruct (IH (insert_customer db (name, mail, reg, joined)))
      as (Hp & Hs & cs & Hc & Hr).
    cbv zeta. rewrite Hp, Hs, Hc. repeat split. simpl customers.
    eexists (_ :: cs). rewrite <- app_assoc. split; [reflexivity|].
    simpl. now rewrite Hr.
Qed.

Lemma executemany_products (db : database)
    (rows : list (pystr * pystr * float * Z)) :
  let db' := executemany insert_product db rows in
  customers db' = customers db /\ sales db' = sales db /\
  exists ps, products db' = products db ++ ps /\ map product_row ps = rows.
Proof.
  revert db. induction rows as [|[[[name cat] p] st] rows IH]; intros db.
  - simpl. repeat split. exists []. now rewrite app_nil_r.
  - change (executemany insert_product db ((name, cat, p, st) :: rows))
      with (executemany insert_product (insert_product db (name, cat, p, st)) rows).
    destruct (IH (insert_product db (name, cat, p, st)))
      as (Hc & Hs & ps & Hp & Hr).
    cbv zeta. rewrite Hc, Hs, Hp. repeat split. simpl products.
    eexists (_ :: ps). rewrite <- app_assoc. split; [reflexivity|].
    simpl. now rewrite Hr.
Qed.

Lemma executemany_sales (db : database) (rows : list (Z * Z * Z * Z * float)) :
  let db' := executemany insert_sale db rows in
  customers db' = customers db /\ products db' = products db /\
  exists ss, sales db' = sales db ++ ss /\ map sale_row ss = rows.
Proof.
  revert db. induction rows as [|[[[[cid pid] qty] day] amount] rows IH]; intros db.
  - simpl. repeat split. exists []. now rewrite app_nil_r.
  - change (executemany insert_sale db ((cid, pid, qty, day, amount) :: rows))
      with (executemany insert_sale (insert_sale db (cid, pid, qty, day, amount)) rows).
    destruct (IH (insert_sale db (cid, pid, qty, day, amount)))
      as (Hc & Hp & ss & Hs & Hr).
    cbv zeta. rewrite Hc, Hp, Hs. repeat split. simpl sales.
    eexists (_ :: ss). rewrite <- app_assoc. split; [reflexivity|].
    simpl. now rewrite Hr.
Qed.

Lemma executemany_customers_keys (db : database)
    (rows : list (pystr * pystr * pystr * pystr)) (n : nat) :
  map customer_id (customers db) = keys 1 n ->
  map customer_id (customers (executemany insert_customer db rows)) =
  keys 1 (n + List.length rows).
Proof.
  revert db n. induction rows as [|[[[name mail] reg] joined] rows IH];
    intros db n Hk.
  - simpl. now rewrite Nat.add_0_r.
  - change (executemany insert_customer db ((name, mail, reg, joined) :: rows))
      with (executemany insert_customer
              (insert_customer db (name, mail, reg, joined)) rows).
    rewrite (IH _ (S n)); [f_equal; simpl; lia|].
    simpl. now rewrite map_app, Hk, <- keys_next.
Qed.

Lemma executemany_products_keys (db : database)
    (rows : list (pystr * pystr * float * Z)) (n : nat) :
  map product_id (products db) = keys 1 n ->
  map product_id (products (executemany insert_product db rows)) =
  keys 1 (n + List.length rows).
Proof.
  revert db n. induction rows as [|[[[name cat] p] st] rows IH];
    intros db n Hk.
  - simpl. now rewrite Nat.add_0_r.
  - change (executemany insert_product db ((name, cat, p, st) :: rows))
      with (executemany insert_product
              (insert_product db (name, cat, p, st)) rows).
    rewrite (IH _ (S n)); [f_equal; simpl; lia|].
    simpl. now rewrite map_app, Hk, <- keys_next.
Qed.

Lemma executemany_sales_keys (db : database)
    (rows : list (Z * Z * Z * Z * float)) (n : nat) :
  map sale_id (sales db) = keys 1 n ->
  map sale_id (sales (executemany insert_sale db rows)) =
  keys 1 (n + List.length rows).
Proof.
  revert db n. induction rows as [|[[[[cid pid] qty] day] amount] rows IH];
    intros db n Hk.
  - simpl. now rewrite Nat.add_0_r.
  - change (executemany insert_sale db ((cid, pid, qty, day, amount) :: rows))
      with (executemany insert_sale
              (insert_sale db (cid, pid, qty, day, amount)) rows).
    rewrite (IH _ (S n)); [f_equal; simpl; lia|].
    simpl. now rewrite map_app, Hk, <- keys_next.
Qed.

(** What the loop gives: [n] tuples more, each drawn as the source draws
    them; or, if it raises, a key between 1 and 8 that the products table
    lacks. *)
Lemma generate_sales_spec (n : nat) (g : rng) (db : database)
    (acc : list (Z * Z * Z * Z * float)) :
  match generate_sales n g db acc with
  | Ok sales_data =>
      exists new, sales_data = acc ++ new /\ List.length new = n /\
                  Forall (drawn_sale db) new
  | Raised _ => exists id, (1 <= id <= 8)%Z /\ select_price db id = None
  end.
Proof.
  revert g acc. induction n as [|n IH]; intros g acc.
  - simpl. exists []. rewrite app_nil_r. repeat split. constructor.
  - cbn [generate_sales].
    pose proof (randint_range g 0 days_between ltac:(rewrite days_between_eq; lia)) as H1.
    destruct (randint g 0 days_between) as [random_days g1].
    pose proof (randint_range g1 1 (Z.of_nat (List.length customers_data))
                  ltac:(simpl; lia)) as H2.
    destruct (randint g1 1 (Z.of_nat (List.length customers_data)))
      as [customer_id g2].
    pose proof (randint_range g2 1 (Z.of_nat (List.length products_data))
                  ltac:(simpl; lia)) as H3.
    destruct (randint g2 1 (Z.of_nat (List.length products_data)))
      as [product_id g3].
    pose proof (randint_range g3 1 5 ltac:(lia)) as H4.
    destruct (randint g3 1 5) as [quantity g4].
    simpl fst in *. simpl List.length in *. simpl Z.of_nat in *.
    destruct (select_price db product_id) as [price|] eqn:Ep.
    + specialize (IH g4 (acc ++ [(customer_id, product_id, quantity,
                                   (start_date + random_days)%Z,
                                   fmul price (of_int quantity))])).
      cbv zeta.
      destruct (generate_sales n g4 db _) as [sales_data|e]; [|exact IH].
      destruct IH as (new & -> & Hlen & Hnew).
      eexists (_ :: new). rewrite <- app_assoc. split; [reflexivity|].
      split; [simpl; now rewrite Hlen|].
      constructor; [|exact Hnew].
      unfold drawn_sale. repeat split; try lia.
      * unfold days_between in H1. lia.
      * now exists price.
    + exists product_id. split; [lia | exact Ep].
Qed.

(** A price is found for every key a product of the table has. *)
Lemma select_price_found (db : database) (id : Z) :
  In id (map product_id (products db)) ->
  exists p, In p (products db) /\ product_id p = id /\
            select_price db id = Some (price p).
Proof.
  unfold select_price. induction (products db) as [|p ps IH]; intros Hin.
  - contradiction.
  - simpl. destruct (Z.eqb_spec (product_id p) id) as [E|E].
    + exists p. simpl. auto.
    + destruct Hin as [Hin|Hin]; [contradiction|].
      destruct (IH Hin) as (p' & Hp' & Hid & Hf). exists p'. simpl. auto.
Qed.

Lemma select_price_some (db : database) (id : Z) (v : float) :
  select_price db id = Some v ->
  exists p, In p (products db) /\ product_id p = id /\ price p = v.
Proof.
  unfold select_price. intros H.
  destruct (find _ (products db)) as [p|] eqn:E; [|discriminate].
  apply find_some in E as [Hin Hid]. apply Z.eqb_eq in Hid.
  exists p. injection H as <-. auto.
Qed.

Lemma in_keys (a : Z) (n : nat) (x : Z) :
  In x (keys a n) <-> (a <= x < a + Z.of_nat n)%Z.
Proof.
  unfold keys. rewrite in_map_iff. split.
  - intros (i & <- & Hi). apply in_seq in Hi. lia.
  - intros H. exists (Z.to_nat (x - a)). split; [lia|]. apply in_seq. lia.
Qed.

(** A sale well formed in a file stays so when rows are added. *)
Lemma sale_well_formed_grows (db db' : database) (s : sale) :
  (forall c, In c (customers db) -> In c (customers db')) ->
  (forall p, In p (products db) -> In p (products db')) ->
  sale_well_formed db s -> sale_well_formed db' s.
Proof.
  intros Hc Hp ((c & Hic & Ec) & (p & Hip & Ep) & Hq & Hd).
  repeat split; try lia; [exists c | exists p]; auto.
Qed.

(** The largest key in use is one of the keys. *)
Lemma fold_left_max_room (rest : list Z) (i c : Z) :
  Forall (fun id => (id + c < 2 ^ 63)%Z) (i :: rest) ->
  (fold_left Z.max rest i + c < 2 ^ 63)%Z.
Proof.
  revert i. induction rest as [|x rest IH]; intros i H.
  - now inversion H.
  - cbn [fold_left]. apply IH.
    inversion H as [|? ? Hi Hrest]; subst. inversion Hrest as [|? ? Hx Hrest']; subst.
    constructor; [|exact Hrest']. cbv beta in *.
    destruct (Z.max_spec i x) as [[_ ->]|[_ ->]]; assumption.
Qed.

(** A key given where there is room for [k + 1] rows leaves room for
    [k]. *)
Lemma next_rowid_room (ids : list Z) (k : Z) :
  (0 <= k)%Z -> (k + 1 < 2 ^ 63)%Z ->
  Forall (fun id => (id + (k + 1) < 2 ^ 63)%Z) ids ->
  Forall (fun id => (id + k < 2 ^ 63)%Z) (ids ++ [next_rowid ids]).
Proof.
  intros Hk Hroom H. apply Forall_app. split.
  - revert H. apply Forall_impl. intros id. lia.
  - constructor; [|constructor].
    destruct ids as [|i rest]; [unfold next_rowid; lia|].
    unfold next_rowid. pose proof (fold_left_max_room rest i (k + 1) H). lia.
Qed.

Lemma executemany_customers_room (db : database)
    (rows : list (pystr * pystr * pystr * pystr)) :
  (Z.of_nat (List.length rows) < 2 ^ 63)%Z ->
  Forall (fun id => (id + Z.of_nat (List.length rows) < 2 ^ 63)%Z)
         (map customer_id (customers db)) ->
  Forall (fun id => (id < 2 ^ 63)%Z)
         (map customer_id (customers (executemany insert_customer db rows))).
Proof.
  revert db. induction rows as [|[[[name mail] reg] joined] rows IH];
    intros db Hn H.
  - simpl in *. revert H. apply Forall_impl. intros id. lia.
  - change (executemany insert_customer db ((name, mail, reg, joined) :: rows))
      with (executemany insert_customer
              (insert_customer db (name, mail, reg, joined)) rows).
    cbn [List.length] in Hn, H. rewrite Nat2Z.inj_succ in Hn, H.
    apply IH; [lia|].
    simpl customers. rewrite map_app. simpl map.
    apply next_rowid_room; [lia | lia |].
    revert H. apply Forall_impl. intros id. lia.
Qed.

Lemma executemany_products_room (db : database)
    (rows : list (pystr * pystr * float * Z)) :
  (Z.of_nat (List.length rows) < 2 ^ 63)%Z ->
  Forall (fun id => (id + Z.of_nat (List.length rows) < 2 ^ 63)%Z)
         (map product_id (products db)) ->
  Forall (fun id => (id < 2 ^ 63)%Z)
         (map product_id (products (executemany insert_product db rows))).
Proof.
  revert db. induction rows as [|[[[name cat] p] st] rows IH]; intros db Hn H.
  - simpl in *. revert H. apply Forall_impl. intros id. lia.
  - change (executemany insert_product db ((name, cat, p, st) :: rows))
      with (executemany insert_product (insert_product db (name, cat, p, st)) rows).
    cbn [List.length] in Hn, H. rewrite Nat2Z.inj_succ in Hn, H.
    apply IH; [lia|].
    simpl products. rewrite map_app. simpl map.
    apply next_rowid_room; [lia | lia |].
    revert H. apply Forall_impl. intros id. lia.
Qed.

Lemma executemany_sales_room (db : database)
    (rows : list (Z * Z * Z * Z * float)) :
  (Z.of_nat (List.length rows) < 2 ^ 63)%Z ->
  Forall (fun id => (id + Z.of_nat (List.length rows) < 2 ^ 63)%Z)
         (map sale_id (sales db)) ->
  Forall (fun id => (id < 2 ^ 63)%Z)
         (map sale_id (sales (executemany insert_sale db rows))).
Proof.
  revert db. induction rows as [|[[[[cid pid] qty] day] amount] rows IH];
    intros db Hn H.
  - simpl in *. revert H. apply Forall_impl. intros id. lia.
  - change (executemany insert_sale db ((cid, pid, qty, day, amount) :: rows))
      with (executemany insert_sale (insert_sale db (cid, pid, qty, day, amount)) rows).
    cbn [List.length] in Hn, H. rewrite Nat2Z.inj_succ in Hn, H.
    apply IH; [lia|].
    simpl sales. rewrite map_app. simpl map.
    apply next_rowid_room; [lia | lia |].
    revert H. apply Forall_impl. intros id. lia.
Qed.

(** With room for the rows of one run, every key of the file after the run
    is below 2^63: each was given by [next_rowid] with the largest key in
    use below 2^63 - 1. *)
Lemma create_database_room (g : rng) (db db' : database) :
  room_for_keys db ->
  create_database g db = Ok db' ->
  Forall (fun id => (id < 2 ^ 63)%Z) (map customer_id (customers db')) /\
  Forall (fun id => (id < 2 ^ 63)%Z) (map product_id (products db')) /\
  Forall (fun id => (id < 2 ^ 63)%Z) (map sale_id (sales db')).
Proof.
  intros (Hc & Hp & Hs). unfold create_database. cbv zeta.
  destruct (executemany_customers db customers_data) as (Hp1 & Hs1 & _).
  destruct (executemany_products (executemany insert_customer db customers_data)
              products_data) as (Hc2 & Hs2 & _).
  pose proof (generate_sales_spec 200 g
                (executemany insert_product
                   (executemany insert_customer db customers_data) products_data)
                []) as Hgen.
  destruct (generate_sales 200 g _ []) as [sales_data|e]; [|discriminate].
  destruct Hgen as (new & -> & Hlen & _).
  change ([] ++ new) with new. intros E.
  assert (E' : db' = executemany insert_sale
                       (executemany insert_product
                          (executemany insert_customer db customers_data)
                          products_data) new) by congruence.
  subst db'. clear E.
  destruct (executemany_sales
              (executemany insert_product
                 (executemany insert_customer db customers_data) products_data)
              new) as (Hc3 & Hp3 & _).
  split; [|split].
  - rewrite Hc3, Hc2. apply executemany_customers_room; [simpl; lia|exact Hc].
  - rewrite Hp3. apply executemany_products_room; [simpl; lia|].
    rewrite Hp1. exact Hp.
  - apply executemany_sales_room; rewrite Hlen; [simpl; lia|].
    rewrite Hs2, Hs1. exact Hs.
Qed.

(** The three steps of the script, on any file. *)
Lemma create_database_steps (g : rng) (db : database) :
  let db2 := executemany insert_product
               (executemany insert_customer db customers_data) products_data in
  (exists cs ps,
      customers db2 = customers db ++ cs /\ map customer_row cs = customers_data /\
      products db2 = products db ++ ps /\ map product_row ps = products_data /\
      sales db2 = sales db) /\
  match create_database g db with
  | Ok db' =>
      customers db' = customers db2 /\ products db' = products db2 /\
      (forall n, map sale_id (sales db) = keys 1 n ->
                 map sale_id (sales db') = keys 1 (n + 200)) /\
      exists ss, sales db' = sales db ++ ss /\ List.length ss = 200%nat /\
                 Forall (drawn_sale db') (map sale_row ss)
  | Raised _ => exists id, (1 <= id <= 8)%Z /\ select_price db2 id = None
  end.
Proof.
  cbv zeta. unfold create_database. cbv zeta.
  destruct (executemany_customers db customers_data) as (Hp1 & Hs1 & cs & Hc1 & Hr1).
  destruct (executemany_products (executemany insert_customer db customers_data)
              products_data) as (Hc2 & Hs2 & ps & Hp2 & Hr2).
  split.
  - exists cs, ps. rewrite Hc2, Hc1, Hp2, Hp1, Hs2, Hs1. auto.
  - pose proof (generate_sales_spec 200 g
                  (executemany insert_product
                     (executemany insert_customer db customers_data) products_data)
                  []) as Hgen.
    destruct (generate_sales 200 g _ []) as [sales_data|e]; [|exact Hgen].
    destruct Hgen as (new & -> & Hlen & Hnew). simpl app in *.
    destruct (executemany_sales
                (executemany insert_product
                   (executemany insert_customer db customers_data) products_data)
                new) as (Hc3 & Hp3 & ss & Hs3 & Hr3).
    split; [exact Hc3|]. split; [exact Hp3|]. split.
    { intros n Hn. rewrite <- Hlen. apply executemany_sales_keys.
      now rewrite Hs2, Hs1. }
    exists ss. rewrite Hs3, Hs2, Hs1. split; [reflexivity|].
    split; [now rewrite <- Hlen, <- Hr3, length_map|].
    rewrite Hr3. revert Hnew. apply Forall_impl.
    intros [[[[cid pid] qty] day] amount]. unfold drawn_sale, select_price.
    now rewrite Hp3.
Qed.

(** X11. The script only adds rows, and fails only for want of a product.
    On a file that holds the three tables of the script, with a float as
    every price and keys that leave room for the rows of one run, either
    the script ends with the rows the file had followed by the five
    customers, the eight products and 200 sales drawn as the loop draws
    them, every key of the file below 2^63, or it raises, and then some key
    between 1 and 8 is the key of no product, not even after the eight were
    inserted. *)
Theorem create_database_appends_or_lacks_a_product (g : rng) (db : database) :
  room_for_keys db ->
  match create_database g db with
  | Ok db' =>
      (exists cs ps ss,
        customers db' = customers db ++ cs /\ map customer_row cs = customers_data /\
        products db' = products db ++ ps /\ map product_row ps = products_data /\
        sales db' = sales db ++ ss /\ List.length ss = 200%nat /\
        Forall (drawn_sale db') (map sale_row ss)) /\
      Forall (fun id => (id < 2 ^ 63)%Z)
             (map customer_id (customers db') ++ map product_id (products db') ++
              map sale_id (sales db'))
  | Raised _ =>
      exists id, (1 <= id <= 8)%Z /\
        select_price (executemany insert_product
                        (executemany insert_customer db customers_data)
                        products_data) id = None
  end.
Proof.
  intros Hroom.
  destruct (create_database_steps g db) as [(cs & ps & Hc & Hrc & Hp & Hrp & _) H].
  pose proof (create_database_room g db) as Hkeys.
  destruct (create_database g db) as [db'|e]; [|exact H].
  destruct H as (Hc' & Hp' & _ & ss & Hs & Hlen & Hss).
  destruct (Hkeys db' Hroom eq_refl) as (Kc & Kp & Ks).
  split.
  - exists cs, ps, ss. rewrite Hc', Hp', Hc, Hp. auto 10.
  - apply Forall_app. split; [exact Kc|]. apply Forall_app. now split.
Qed.

(** One more run on a file the script filled [k] times ends well, with the
    file filled once more. *)
Lemma create_database_filled (k : nat) (g : rng) (db : database) :
  filled k db ->
  exists db', create_database g db = Ok db' /\ filled (S k) db'.
Proof.
  intros (Hck & Hcr & Hpk & Hpr & Hsk & Hwf).
  destruct (create_database_steps g db) as [(cs & ps & Hc & Hrc & Hp & Hrp & Hs) H].
  assert (Hc2k : map customer_id
                   (customers (executemany insert_product
                      (executemany insert_customer db customers_data) products_data)) =
                 keys 1 (5 * S k)).
  { destruct (executemany_products (executemany insert_customer db customers_data)
                products_data) as (-> & _).
    rewrite (executemany_customers_keys db customers_data (5 * k) Hck).
    f_equal. simpl List.length. lia. }
  assert (Hp2k : map product_id
                   (products (executemany insert_product
                      (executemany insert_customer db customers_data) products_data)) =
                 keys 1 (8 * S k)).
  { rewrite (executemany_products_keys _ products_data (8 * k)).
    - f_equal. simpl List.length. lia.
    - destruct (executemany_customers db customers_data) as (-> & _). exact Hpk. }
  destruct (create_database g db) as [db'|e] eqn:E.
  - destruct H as (Hc' & Hp' & Hkeys & ss & Hs' & Hlen & Hss).
    exists db'. split; [reflexivity|].
    unfold filled. rewrite Hc', Hp'. repeat split.
    + exact Hc2k.
    + rewrite Hc, map_app, Hcr, Hrc. reflexivity.
    + exact Hp2k.
    + rewrite Hp, map_app, Hpr, Hrp. reflexivity.
    + rewrite (Hkeys _ Hsk). f_equal. lia.
    + rewrite Hs'. apply Forall_app. split.
      * revert Hwf. apply Forall_impl. intros s.
        apply sale_well_formed_grows.
        -- intros c Hin. rewrite Hc', Hc. apply in_or_app. now left.
        -- intros p Hin. rewrite Hp', Hp. apply in_or_app. now left.
      * apply Forall_forall. intros s Hin.
        rewrite Forall_forall in Hss.
        specialize (Hss (sale_row s) (in_map sale_row _ _ Hin)).
        unfold drawn_sale, sale_row in Hss.
        destruct Hss as (Hcid & Hpid & Hqty & Hday & price & Hprice & Hamount).
        repeat split; try lia.
        -- assert (Hin' : In (sale_customer_id s) (map customer_id (customers db'))).
           { rewrite Hc', Hc2k. apply in_keys. lia. }
           apply in_map_iff in Hin' as (c & Ec & Hc0). exists c. split; assumption.
        -- destruct (select_price_some _ _ _ Hprice) as (p & Hp0 & Ep & <-).
           exists p. repeat split; assumption.
  - exfalso. destruct H as (id & Hid & Hnone).
    destruct (select_price_found
                (executemany insert_product
                   (executemany insert_customer db customers_data) products_data) id)
      as (p & _ & _ & Hsome).
    + rewrite Hp2k. apply in_keys. lia.
    + congruence.
Qed.

Lemma runs_filled (gs : list rng) (k : nat) (db : database) :
  filled k db ->
  exists db', runs gs db = Ok db' /\ filled (k + List.length gs) db'.
Proof.
  revert k db. induction gs as [|g gs IH]; intros k db Hk.
  - exists db. simpl. now rewrite Nat.add_0_r.
  - destruct (create_database_filled k g db Hk) as (db1 & E1 & H1).
    destruct (IH (S k) db1 H1) as (db' & E' & H').
    exists db'. simpl. rewrite E1. split; [exact E'|].
    now replace (k + S (List.length gs))%nat with (S k + List.length gs)%nat by lia.
Qed.

Lemma filled_empty : filled 0 empty.
Proof. repeat split. constructor. Qed.

(** X12. Every run on its own file ends well, and a second run doubles
    the sample. Started on an empty file and run [k] times, with any
    generators, the script never raises; it leaves 5k customers, 8k
    products and 200k sales keyed from 1 without a gap, the customers and
    the products being the sample rows [k] times over. *)
Theorem runs_repeat_the_sample_rows (gs : list rng) :
  exists db,
    runs gs empty = Ok db /\
    map customer_id (customers db) = keys 1 (5 * List.length gs) /\
    map customer_row (customers db) = repeated (List.length gs) customers_data /\
    map product_id (products db) = keys 1 (8 * List.length gs) /\
    map product_row (products db) = repeated (List.length gs) products_data /\
    map sale_id (sales db) = keys 1 (200 * List.length gs).
Proof.
  destruct (runs_filled gs 0 empty filled_empty)
    as (db & E & Hc & Hcr & Hp & Hpr & Hs & _).
  exists db. auto 10.
Qed.

(** X13. The sales of the sample refer to rows that exist. After any
    number of runs from an empty file, every sale names a customer and a
    product of the file, its quantity is between 1 and 5, its day between
    the first of January 2023 and the 31st of March 2024, and its amount is
    the price of its product times its quantity. *)
Theorem sales_refer_to_rows (gs : list rng) :
  match runs gs empty with
  | Ok db => Forall (sale_well_formed db) (sales db)
  | Raised _ => False
  end.
Proof.
  destruct (runs_filled gs 0 empty filled_empty) as (db & -> & H).
  apply H.
Qed.

End SampleDbFacts.

Lemma create_database_appends_or_lacks_a_product_witness :
  let F := Exact.exact in
  let M := SampleDb.exact_product in
  let R := SampleDb.lcg in
  match SampleDb.create_database 42%Z SampleDb.empty with
  | Ok db' =>
      (exists cs ps ss,
        SampleDb.customers db' = SampleDb.customers SampleDb.empty ++ cs /\
        map SampleDb.customer_row cs = SampleDb.customers_data /\
        SampleDb.products db' = SampleDb.products SampleDb.empty ++ ps /\
        map SampleDb.product_row ps = SampleDb.products_data /\
        SampleDb.sales db' = SampleDb.sales SampleDb.empty ++ ss /\
        List.length ss = 200%nat /\
        Forall (SampleDb.drawn_sale db') (map SampleDb.sale_row ss)) /\
      Forall (fun id => (id < 2 ^ 63)%Z)
             (map SampleDb.customer_id (SampleDb.customers db') ++
              map SampleDb.product_id (SampleDb.products db') ++
              map SampleDb.sale_id (SampleDb.sales db'))
  | Raised _ =>
      exists id, (1 <= id <= 8)%Z /\
        SampleDb.select_price
          (SampleDb.executemany SampleDb.insert_product
             (SampleDb.executemany SampleDb.insert_customer SampleDb.empty
                SampleDb.customers_data)
             SampleDb.products_data) id = None
  end.
Proof.
  intros F M R.
  apply (create_database_appends_or_lacks_a_product (M := M) (R := R)
           42%Z SampleDb.empty).
  repeat split; constructor.
Defined.

(** The script run twice with two seeds. *)
Example two_runs :
  match SampleDb.runs (M := SampleDb.exact_product) (R := SampleDb.lcg)
          [42%Z; 7%Z]
          SampleDb.empty with
  | Ok db =>
      (List.length (SampleDb.customers db), List.length (SampleDb.products db),
       List.length (SampleDb.sales db)) = (10%nat, 16%nat, 400%nat)
  | Raised _ => False
  end.
Proof. vm_compute. reflexivity. Qed.
